(** * chaos-middleware: a shallow embedding of the request interceptor

    The repository exports one function, [chaosMiddleware], which takes a
    policy object and returns an Express/Next.js middleware.  Two versions
    are in the sources: the two-option one of [src/index.ts] and the
    five-option one (with [error], [methods] and [activationKeyword]).

    The embedding keeps the shape of the TypeScript:
    - a JavaScript [number] is an IEEE-754 binary64 value, with the rounding
      of every arithmetic operation, as specified by the Standard Library's
      [SpecFloat] (53 bits of precision, round to nearest even);
    - [Math.random()], [console.log], the calls on the response object,
      [await delay(ms)] and [next()] are effects of a small monad that
      threads the position in the stream of random samples and collects the
      calls in a trace; a [return] statement ends the body early;
    - the closure is also embedded over the state it can reach
      ([process.env], the object bound to [options], the generator), to
      show what it leaves unassigned;
    - a string is the sequence of its code units, compared for equality
      only; [String.prototype.toUpperCase] is a builtin of the JavaScript
      engine with its Unicode tables, so it is taken as an interface, and
      what is proved holds for every implementation of it. *)

From Stdlib Require Import ZArith Bool List Ascii String.
From Stdlib Require Import Floats.SpecFloat.
From stdpp Require Import base option strings list gmap.

Local Open Scope Z_scope.

(** ** JavaScript values *)

Module JS.

(** [number]: IEEE-754 binary64. *)
Definition prec : Z := 53.
Definition emax : Z := 1024.
Definition number : Type := spec_float.

(** An integer literal of the source text. *)
Definition num_of_Z (z : Z) : number := binary_normalize prec emax z 0 false.

Definition zero : number := num_of_Z 0.
Definition one : number := num_of_Z 1.

Definition add (x y : number) : number := SFadd prec emax x y.
Definition sub (x y : number) : number := SFsub prec emax x y.
Definition mul (x y : number) : number := SFmul prec emax x y.
(** [x < y] *)
Definition lt (x y : number) : bool := SFltb x y.
(** [x <= y] *)
Definition le (x y : number) : bool := SFleb x y.

(** [Math.floor]: NaN, the zeros and the infinities are returned as they
    are, and so is a finite value with a non-negative exponent, which is
    an integer already; otherwise the significand is shifted right,
    rounding towards minus infinity. *)
Definition Math_floor (x : number) : number :=
  match x with
  | S754_finite s m e =>
      if 0 <=? e then x
      else binary_normalize prec emax
             (Z.shiftr (cond_Zopp s (Zpos m)) (- e)) 0 false
  | _ => x
  end.

(** ToBoolean on a number: [NaN], [+0] and [-0] are falsy. *)
Definition truthy_number (x : number) : bool :=
  match x with
  | S754_zero _ | S754_nan => false
  | _ => true
  end.

(** ToBoolean on a string: only the empty string is falsy. *)
Definition truthy_string (s : string) : bool := negb (bool_decide (s = EmptyString)).

(** A well-formed binary64 value: the significand of a finite value is
    canonical and its exponent in range. *)
Definition is_double (x : number) : bool := valid_binary prec emax x.

(** Zero or finite: neither NaN nor an infinity. *)
Definition is_finite (x : number) : bool :=
  match x with
  | S754_zero _ | S754_finite _ _ _ => true
  | _ => false
  end.

(** The exact value of a zero or finite number, counted in units of
    [2^-1074], the smallest positive binary64 value; [1] counts [2^1074]. *)
Definition exact (x : number) : Z :=
  match x with
  | S754_finite s m e => cond_Zopp s (Zpos m * 2 ^ (e + 1074))
  | _ => 0
  end.

(** A sample of [Math.random()] lies in the interval [0, 1). *)
Definition unit_interval (r : number) : bool := le zero r && lt r one.

(** [String.prototype.toUpperCase] belongs to the engine: it maps every
    code point by the Unicode case tables (['ß'] to ['SS'], ['ı'] to ['I']).
    The middleware is embedded over any such function; the two laws are all
    that the proofs use of it: the empty string is mapped to itself, and no
    other string is mapped to it. *)
Class StringPrototype : Type := {
  toUpperCase : string -> string;
  toUpperCase_empty : toUpperCase EmptyString = EmptyString;
  toUpperCase_nonempty :
    forall s : string, s <> EmptyString -> toUpperCase s <> EmptyString
}.

(** What [toUpperCase] does on a string of ASCII characters. *)
Definition upper_ascii (c : ascii) : ascii :=
  let n := N_of_ascii c in
  if ((97 <=? n) && (n <=? 122))%N then ascii_of_N (n - 32) else c.

Fixpoint ascii_toUpperCase (s : string) : string :=
  match s with
  | EmptyString => EmptyString
  | String c s' => String (upper_ascii c) (ascii_toUpperCase s')
  end.

(** An implementation to compute with on ASCII inputs, where it agrees with
    the engine's. *)
Definition ascii_string_prototype : StringPrototype :=
  {| toUpperCase := ascii_toUpperCase;
     toUpperCase_empty := eq_refl;
     toUpperCase_nonempty :=
       fun s =>
         match s as s0
           return s0 <> EmptyString -> ascii_toUpperCase s0 <> EmptyString
         with
         | EmptyString => fun H => H
         | String c s' =>
             fun _ (E : String (upper_ascii c) (ascii_toUpperCase s') = EmptyString) =>
               eq_ind (String (upper_ascii c) (ascii_toUpperCase s'))
                 (fun x => match x with EmptyString => False | String _ _ => True end)
                 I EmptyString E
         end |}.

(** A value of type [any]. *)
#[local] Set Warnings "-register-all".
Inductive value : Type :=
| VUndefined
| VNull
| VBool (b : bool)
| VNum (n : number)
| VStr (s : string)
| VArr (items : list value)
| VObj (fields : list (string * value)).

(** [v !== s] for a string literal [s]: strict inequality, no coercion. *)
Definition strict_neq_string (v : value) (s : string) : bool :=
  match v with
  | VStr s' => negb (bool_decide (s' = s))
  | _ => true
  end.

End JS.

Import JS.

(** ** Effects of a middleware invocation *)

(** The three [console.log] lines of the source; the delay line carries the
    number interpolated into its template string. *)
Inductive log_line : Type :=
| LogActivated (keyword : string)
| LogInjectingError
| LogDelaying (ms : number).

(** The object a response method is called on: [res] itself, or the object
    that [res.status(..)] returned, as in [res.status(500).end()]. *)
Inductive receiver : Type :=
| OnRes
| OnStatusResult.

Inductive event : Type :=
| ConsoleLog (line : log_line)
| ResStatus (code : number)
| ResJson (body : gmap string value)
| ResEnd (on : receiver)
| Delay (ms : number)
| Next.

Definition trace : Type := list event.

(** How a block of statements completes: it falls through with a value, or
    it has executed a [return]. *)
Inductive completion (A : Type) : Type :=
| Normal (a : A)
| Returned.
Arguments Normal {A} a.
Arguments Returned {A}.

(** A computation reads the stream of samples that [Math.random()] will
    produce, starts at a position in it, and yields its completion, the
    position it has reached and the calls it has made. *)
Definition Eff (A : Type) : Type :=
  (nat -> number) -> nat -> completion A * nat * trace.

#[global] Instance Eff_ret : MRet Eff :=
  fun A a _ pos => (Normal a, pos, []).

#[global] Instance Eff_bind : MBind Eff :=
  fun A B k m rng pos =>
    match m rng pos with
    | (Normal a, pos', t) =>
        match k a rng pos' with
        | (c, pos'', t') => (c, pos'', t ++ t')
        end
    | (Returned, pos', t) => (Returned, pos', t)
    end.

(** [Math.random()] *)
Definition Math_random : Eff number :=
  fun rng pos => (Normal (rng pos), S pos, []).

Definition emit (e : event) : Eff unit :=
  fun _ pos => (Normal tt, pos, [e]).

(** [return;] *)
Definition return_ {A : Type} : Eff A :=
  fun _ pos => (Returned, pos, []).

(** [if (c) { body }] without an else branch. *)
Definition when (c : bool) (body : Eff unit) : Eff unit :=
  if c then body else mret tt.

Definition console_log (l : log_line) : Eff unit := emit (ConsoleLog l).
Definition next : Eff unit := emit Next.
(** [await delay(ms)] *)
Definition delay (ms : number) : Eff unit := emit (Delay ms).

(** [process.env.NODE_ENV === 'production'] *)
Definition is_production (NODE_ENV : option string) : bool :=
  bool_decide (NODE_ENV = Some "production"%string).

(** [options.latency]: a number, or a two-element array. *)
Inductive latency_option : Type :=
| Fixed (ms : number)
| Range (min max : number).

(** ToBoolean on [options.latency]: an array is an object, hence truthy. *)
Definition truthy_latency (l : latency_option) : bool :=
  match l with
  | Fixed ms => truthy_number ms
  | Range _ _ => true
  end.

(** [x || d] on an optional number. *)
Definition or_default (x : option number) (d : number) : number :=
  match x with
  | Some n => if truthy_number n then n else d
  | None => d
  end.

(** ** [src/index.ts] *)

Module IndexTs.

Record ChaosOptions : Type := {
  latency : option latency_option;
  errorRate : option number
}.

(** [type GenericRequest = {}] *)
Record GenericRequest : Type := { }.

Definition chaosMiddleware (options : ChaosOptions)
    (NODE_ENV : option string) (req : GenericRequest) : Eff unit :=
  when (is_production NODE_ENV) (next ;; return_) ;;
  let errorRate := default zero (errorRate options) in
  r ← Math_random ;
  when (lt r errorRate) (
    console_log LogInjectingError ;;
    emit (ResStatus (num_of_Z 500)) ;; emit (ResEnd OnStatusResult) ;;
    return_) ;;
  match latency options with
  | Some l =>
      when (truthy_latency l) (
        latency_ms ← match l with
                     | Range min max =>
                         r' ← Math_random ;
                         mret (Math_floor (add (mul r' (add (sub max min) (num_of_Z 1))) min))
                     | Fixed ms => mret ms
                     end ;
        console_log (LogDelaying latency_ms) ;;
        delay latency_ms)
  | None => mret tt
  end ;;
  next ;; return_.

End IndexTs.

(** ** The five-option middleware *)

Record ChaosError : Type := {
  status : number;
  body : option (gmap string value)
}.

Record ChaosOptions : Type := {
  latency : option latency_option;
  errorRate : option number;
  error : option ChaosError;
  methods : option (list string);
  activationKeyword : option string
}.

Record GenericRequest : Type := {
  method : option string;
  query : option (gmap string value)
}.

(** [!req.query || req.query[keyword] !== 'true'] *)
Definition not_activated (req : GenericRequest) (keyword : string) : bool :=
  match query req with
  | None => true
  | Some q =>
      match q !! keyword with
      | Some v => strict_neq_string v "true"
      | None => true
      end
  end.

(** [!reqMethod || !allowedMethods.includes(reqMethod)] *)
Definition not_allowed (reqMethod : option string) (allowedMethods : list string) : bool :=
  match reqMethod with
  | None => true
  | Some m => negb (truthy_string m) || negb (bool_decide (m ∈ allowedMethods))
  end.

Definition chaosMiddleware `{StringPrototype} (options : ChaosOptions)
    (NODE_ENV : option string) (req : GenericRequest) : Eff unit :=
  when (is_production NODE_ENV) (next ;; return_) ;;
  match activationKeyword options with
  | Some keyword =>
      when (truthy_string keyword) (
        when (not_activated req keyword) (next ;; return_) ;;
        console_log (LogActivated keyword))
  | None => mret tt
  end ;;
  match methods options with
  | Some ms =>
      when (bool_decide (0 < length ms)%nat) (
        let reqMethod := toUpperCase <$> method req in
        let allowedMethods := toUpperCase <$> ms in
        when (not_allowed reqMethod allowedMethods) (next ;; return_))
  | None => mret tt
  end ;;
  let errorRate := default zero (errorRate options) in
  r ← Math_random ;
  when (lt r errorRate) (
    let customError := error options in
    let status := or_default (status <$> customError) (num_of_Z 500) in
    let body := customError ≫= body in
    console_log LogInjectingError ;;
    emit (ResStatus status) ;;
    match body with
    | Some b => emit (ResJson b)
    | None => emit (ResEnd OnRes)
    end ;;
    return_) ;;
  match latency options with
  | Some l =>
      when (truthy_latency l) (
        latency_ms ← match l with
                     | Range min max =>
                         r' ← Math_random ;
                         mret (Math_floor (add (mul r' (add (sub max min) (num_of_Z 1))) min))
                     | Fixed ms => mret ms
                     end ;
        console_log (LogDelaying latency_ms) ;;
        delay latency_ms)
  | None => mret tt
  end ;;
  next ;; return_.

(** ** Running an invocation and observing it *)

(** The calls one invocation makes, in order. *)
Definition calls (m : Eff unit) (rng : nat -> number) (pos : nat) : trace :=
  snd (m rng pos).

(** The position in the sample stream after the invocation. *)
Definition position_after (m : Eff unit) (rng : nat -> number) (pos : nat) : nat :=
  snd (fst (m rng pos)).

(** How many samples the invocation has drawn. *)
Definition draws (m : Eff unit) (rng : nat -> number) (pos : nat) : nat :=
  (position_after m rng pos - pos)%nat.

Definition is_next (e : event) : bool :=
  match e with Next => true | _ => false end.

Definition is_response_call (e : event) : bool :=
  match e with ResStatus _ | ResJson _ | ResEnd _ => true | _ => false end.

(** Number of calls of [next()]. *)
Definition next_calls (t : trace) : nat := length (List.filter is_next t).

(** The calls on the response object. *)
Definition response_calls (t : trace) : trace := List.filter is_response_call t.

(** The delays awaited, in milliseconds. *)
Definition delays (t : trace) : list number :=
  omap (fun e => match e with Delay ms => Some ms | _ => None end) t.

(** The status codes set on the response. *)
Definition statuses (t : trace) : list number :=
  omap (fun e => match e with ResStatus c => Some c | _ => None end) t.

(** How the response is terminated: by [end()], whatever object of the
    [status] chain it is called on, or by [json(body)]. *)
Inductive termination : Type :=
| ByEnd
| ByJson (body : gmap string value).

Definition terminations (t : trace) : list termination :=
  omap (fun e => match e with
                 | ResEnd _ => Some ByEnd
                 | ResJson b => Some (ByJson b)
                 | _ => None
                 end) t.

(** What a client and the rest of the pipeline can observe of an invocation. *)
Record observation : Type := {
  obs_next : nat;
  obs_status : list number;
  obs_termination : list termination;
  obs_delay : list number
}.

Definition observe (t : trace) : observation :=
  {| obs_next := next_calls t;
     obs_status := statuses t;
     obs_termination := terminations t;
     obs_delay := delays t |}.

(** A server that hands a sequence of requests, one after the other, to the
    one middleware closure that [chaosMiddleware options] returned;
    [process.env.NODE_ENV] is read anew at each request.  The result is the
    position reached in the sample stream. *)
Fixpoint serve (mw : option string -> GenericRequest -> Eff unit)
    (rng : nat -> number) (pos : nat)
    (requests : list (option string * GenericRequest)) : nat :=
  match requests with
  | [] => pos
  | (env, req) :: rest => serve mw rng (position_after (mw env req) rng pos) rest
  end.

(** The three gates of the five-option middleware, as the specification names them. *)
Definition activation_gate_passes (options : ChaosOptions) (req : GenericRequest) : bool :=
  match activationKeyword options with
  | Some keyword => negb (truthy_string keyword) || negb (not_activated req keyword)
  | None => true
  end.

Definition method_gate_passes `{StringPrototype} (options : ChaosOptions)
    (req : GenericRequest) : bool :=
  match methods options with
  | Some ms =>
      negb (bool_decide (0 < length ms)%nat)
      || negb (not_allowed (toUpperCase <$> method req) (toUpperCase <$> ms))
  | None => true
  end.

Definition chaos_applies `{StringPrototype} (options : ChaosOptions)
    (NODE_ENV : option string)
    (req : GenericRequest) : bool :=
  negb (is_production NODE_ENV)
  && activation_gate_passes options req
  && method_gate_passes options req.

(** The options with [methods] replaced. *)
Definition with_methods (options : ChaosOptions) (ms : option (list string)) : ChaosOptions :=
  {| latency := latency options;
     errorRate := errorRate options;
     error := error options;
     methods := ms;
     activationKeyword := activationKeyword options |}.

(** The options of [src/index.ts] that a five-option object carries. *)
Definition to_index_options (options : ChaosOptions) : IndexTs.ChaosOptions :=
  {| IndexTs.latency := latency options;
     IndexTs.errorRate := errorRate options |}.

(** Every request object is a [{}]. *)
Definition to_index_request (req : GenericRequest) : IndexTs.GenericRequest :=
  IndexTs.Build_GenericRequest.

(** ** The closure and the state within its reach

    [chaosMiddleware(options)] returns a closure over the binding [options].
    The object bound to it lives on the heap and [process.env] is a global
    object: both can be assigned to by the program around the middleware
    and, as far as the language goes, by the middleware itself; the random
    generator advances at every draw.  Here the body is embedded once more,
    statement by statement, as a program over that state, in which every
    [options.x] and [process.env.NODE_ENV] is a read of the state at the
    moment the statement runs. *)

Record World : Type := {
  (** [process.env] *)
  process_env : gmap string string;
  (** the object bound to [options] in the closure *)
  captured_options : ChaosOptions;
  (** what [Math.random()] returns, draw after draw *)
  samples : nat -> number;
  (** the number of draws so far *)
  cursor : nat
}.

(** A program may read and write the whole state. *)
Definition Prog (A : Type) : Type := World -> completion A * World * trace.

#[global] Instance Prog_ret : MRet Prog :=
  fun A a w => (Normal a, w, []).

#[global] Instance Prog_bind : MBind Prog :=
  fun A B k m w =>
    match m w with
    | (Normal a, w', t) =>
        match k a w' with
        | (c, w'', t') => (c, w'', t ++ t')
        end
    | (Returned, w', t) => (Returned, w', t)
    end.

Module Closure.

(** [Math.random()] *)
Definition Math_random : Prog number :=
  fun w =>
    (Normal (samples w (cursor w)),
     {| process_env := process_env w;
        captured_options := captured_options w;
        samples := samples w;
        cursor := S (cursor w) |},
     []).

Definition emit (e : event) : Prog unit :=
  fun w => (Normal tt, w, [e]).

(** [return;] *)
Definition return_ {A : Type} : Prog A :=
  fun w => (Returned, w, []).

(** [if (c) { body }] without an else branch. *)
Definition when (c : bool) (body : Prog unit) : Prog unit :=
  if c then body else mret tt.

Definition console_log (l : log_line) : Prog unit := emit (ConsoleLog l).
Definition next : Prog unit := emit Next.
(** [await delay(ms)] *)
Definition delay (ms : number) : Prog unit := emit (Delay ms).

(** [process.env[name]] *)
Definition env_get (name : string) : Prog (option string) :=
  fun w => (Normal (process_env w !! name), w, []).

(** [options.field] *)
Definition options_get {A : Type} (field : ChaosOptions -> A) : Prog A :=
  fun w => (Normal (field (captured_options w)), w, []).

(** The function that [chaosMiddleware(options)] returns. *)
Definition chaosMiddleware `{StringPrototype} (req : GenericRequest) : Prog unit :=
  NODE_ENV ← env_get "NODE_ENV" ;
  when (is_production NODE_ENV) (next ;; return_) ;;
  activation ← options_get activationKeyword ;
  match activation with
  | Some keyword =>
      when (truthy_string keyword) (
        when (not_activated req keyword) (next ;; return_) ;;
        console_log (LogActivated keyword))
  | None => mret tt
  end ;;
  allowed ← options_get methods ;
  match allowed with
  | Some ms =>
      when (bool_decide (0 < length ms)%nat) (
        let reqMethod := toUpperCase <$> method req in
        let allowedMethods := toUpperCase <$> ms in
        when (not_allowed reqMethod allowedMethods) (next ;; return_))
  | None => mret tt
  end ;;
  rate ← options_get errorRate ;
  let errorRate := default zero rate in
  r ← Math_random ;
  when (lt r errorRate) (
    customError ← options_get error ;
    let status := or_default (status <$> customError) (num_of_Z 500) in
    let body := customError ≫= body in
    console_log LogInjectingError ;;
    emit (ResStatus status) ;;
    match body with
    | Some b => emit (ResJson b)
    | None => emit (ResEnd OnRes)
    end ;;
    return_) ;;
  configured ← options_get latency ;
  match configured with
  | Some l =>
      when (truthy_latency l) (
        latency_ms ← match l with
                     | Range min max =>
                         r' ← Math_random ;
                         mret (Math_floor (add (mul r' (add (sub max min) (num_of_Z 1))) min))
                     | Fixed ms => mret ms
                     end ;
        console_log (LogDelaying latency_ms) ;;
        delay latency_ms)
  | None => mret tt
  end ;;
  next ;; return_.

(** The calls of one invocation, and the state it leaves. *)
Definition calls (m : Prog unit) (w : World) : trace := snd (m w).

Definition world_after (m : Prog unit) (w : World) : World := snd (fst (m w)).

Definition draws (m : Prog unit) (w : World) : nat :=
  (cursor (world_after m w) - cursor w)%nat.

(** A server hands requests to the closure one after the other; each
    invocation starts in the state the one before has left. *)
Fixpoint serve `{StringPrototype} (requests : list GenericRequest) (w : World) : World :=
  match requests with
  | [] => w
  | req :: rest => serve rest (world_after (chaosMiddleware req) w)
  end.

End Closure.

(** ** The body of the middleware, branch by branch *)

(** The line logged when the activation gate lets the request in. *)
Definition activation_log (options : ChaosOptions) : trace :=
  match activationKeyword options with
  | Some keyword =>
      if truthy_string keyword then [ConsoleLog (LogActivated keyword)] else []
  | None => []
  end.

(** The calls of the error branch. *)
Definition error_calls (options : ChaosOptions) : trace :=
  [ ConsoleLog LogInjectingError;
    ResStatus (or_default (status <$> error options) (num_of_Z 500));
    match error options ≫= body with
    | Some b => ResJson b
    | None => ResEnd OnRes
    end ].

(** The delay that the latency branch awaits, given the sample it draws when
    [options.latency] is an array. *)
Definition latency_ms (l : latency_option) (r : number) : number :=
  match l with
  | Range min max => Math_floor (add (mul r (add (sub max min) (num_of_Z 1))) min)
  | Fixed ms => ms
  end.

(** The samples the latency branch draws. *)
Definition latency_draws (l : latency_option) : nat :=
  match l with
  | Range _ _ => 1%nat
  | Fixed _ => 0%nat
  end.

Definition latency_calls (l : option latency_option) (r : number) : trace :=
  match l with
  | Some l =>
      if truthy_latency l
      then [ConsoleLog (LogDelaying (latency_ms l r)); Delay (latency_ms l r)]
      else []
  | None => []
  end.

Definition latency_position (l : option latency_option) (pos : nat) : nat :=
  match l with
  | Some l => if truthy_latency l then (latency_draws l + pos)%nat else pos
  | None => pos
  end.

(** ** What the specification speaks of *)

(** The invocation has sent the synthetic error response: a status is set on
    the response, then the configured body is sent as JSON or, without one,
    the response is ended; [next()] is not called. *)
Definition sends_error_response (options : ChaosOptions) (t : trace) : Prop :=
  (exists code,
     response_calls t =
       ResStatus code ::
       match error options ≫= body with
       | Some b => [ResJson b]
       | None => [ResEnd OnRes]
       end)
  /\ next_calls t = 0%nat.

(** The invocation has handed the request on: one call of [next()], no call
    on the response. *)
Definition passes_through (t : trace) : Prop :=
  next_calls t = 1%nat /\ response_calls t = [].

(** An error was injected: some call was made on the response. *)
Definition injects_error (t : trace) : Prop := response_calls t <> [].

(** The request was handed on untouched: [next()] once, no delay awaited, no
    call on the response, no sample drawn. *)
Definition untouched (m : Eff unit) (rng : nat -> number) (pos : nat) : Prop :=
  next_calls (calls m rng pos) = 1%nat
  /\ delays (calls m rng pos) = []
  /\ response_calls (calls m rng pos) = []
  /\ draws m rng pos = 0%nat.

(** The delays the latency branch awaits, given the sample it may draw. *)
Definition expected_delays (l : option latency_option) (r : number) : list number :=
  match l with
  | Some l => if truthy_latency l then [latency_ms l r] else []
  | None => []
  end.

(** The error decision, as it shows in the calls [t] and the number of
    samples [d] drawn by an invocation whose first sample is [r]: an error is
    injected exactly when [r < rate ?? 0], which for finite numbers is the
    strict order of their exact values; the decision has drawn that one
    sample, and nothing else is drawn when the error is injected; with
    [rate] omitted or zero no sample of [0, 1) injects an error, and with
    [rate] one every sample of [0, 1) does. *)
Definition error_decision (t : trace) (d : nat) (rate : option number) (r : number) : Prop :=
  (injects_error t <-> lt r (default zero rate) = true)
  /\ (is_double r = true -> is_finite r = true ->
      is_double (default zero rate) = true -> is_finite (default zero rate) = true ->
      (injects_error t <-> exact r < exact (default zero rate)))
  /\ (1 <= d)%nat
  /\ (injects_error t -> d = 1%nat)
  /\ (unit_interval r = true ->
      rate = None \/ (exists s, rate = Some (S754_zero s)) ->
      ~ injects_error t)
  /\ (unit_interval r = true -> rate = Some one -> injects_error t).

(** Express and Next.js return the response itself from [res.status(..)]:
    a call on the object that [status] returned is a call on [res]. *)
Definition on_response (e : event) : event :=
  match e with
  | ResEnd _ => ResEnd OnRes
  | _ => e
  end.

(** *** Concrete inputs *)

(** The largest binary64 value below 1, [1 - 2^-53], which prints as
    [0.9999999999999999]. *)
Definition almost_one : number := S754_finite false (2 ^ 53 - 1) (-53).

(** [1 - 2^-52], which prints as [0.9999999999999998]: the largest sample of
    a generator that fills the 52 bits of the fraction. *)
Definition below_one : number := S754_finite false (2 ^ 53 - 2) (-53).

(** [0.5] *)
Definition half : number := S754_finite false (2 ^ 52) (-53).

Definition constant_samples (r : number) : nat -> number := fun _ => r.

(** [{}] *)
Definition no_options : ChaosOptions :=
  {| latency := None; errorRate := None; error := None;
     methods := None; activationKeyword := None |}.

(** [{ latency: [500, 1500], errorRate: 0.5 }], close to the first example of
    the Readme. *)
Definition readme_options : ChaosOptions :=
  {| latency := Some (Range (num_of_Z 500) (num_of_Z 1500));
     errorRate := Some half; error := None;
     methods := None; activationKeyword := None |}.

(** [{ latency: [800, 1500] }], the range of the Readme's method example. *)
Definition range_options : ChaosOptions :=
  {| latency := Some (Range (num_of_Z 800) (num_of_Z 1500));
     errorRate := None; error := None;
     methods := None; activationKeyword := None |}.

(** [{ latency: [1000, 3000], activationKeyword: 'chaos' }], the Readme's
    on-demand example. *)
Definition keyword_options : ChaosOptions :=
  {| latency := Some (Range (num_of_Z 1000) (num_of_Z 3000));
     errorRate := None; error := None;
     methods := None; activationKeyword := Some "chaos"%string |}.

(** [{ latency: [800, 1500], methods: ['POST', 'DELETE'] }], the Readme's
    method example. *)
Definition methods_options : ChaosOptions :=
  {| latency := Some (Range (num_of_Z 800) (num_of_Z 1500));
     errorRate := None; error := None;
     methods := Some ["POST"; "DELETE"]%string; activationKeyword := None |}.

(** A [GET] request without a query string. *)
Definition get_request : GenericRequest :=
  {| method := Some "GET"%string; query := None |}.

(** [GET /api/data?chaos=false] *)
Definition chaos_false_request : GenericRequest :=
  {| method := Some "GET"%string;
     query := Some {[ "chaos"%string := VStr "false" ]} |}.

(** [{ method: 'get' }] against [methods: ['POST', 'DELETE']]. *)
Definition lowercase_get_request : GenericRequest :=
  {| method := Some "get"%string; query := None |}.

(** [{ latency: [1, 1] }] *)
Definition one_one_options : ChaosOptions :=
  {| latency := Some (Range (num_of_Z 1) (num_of_Z 1));
     errorRate := None; error := None;
     methods := None; activationKeyword := None |}.

(** A stream of samples that starts [0.5, 0.9999999999999999] and goes on
    with zeros. *)
Definition two_samples : nat -> number :=
  fun k => match k with
           | O => half
           | S O => almost_one
           | _ => zero
           end.

(** The same two samples, found later in another stream. *)
Definition shifted_samples : nat -> number :=
  fun k => match k with
           | 2%nat => zero
           | 3%nat => half
           | 4%nat => almost_one
           | _ => one
           end.

(** ** Variations of an options object *)

(** The options with [activationKeyword] replaced. *)
Definition with_activationKeyword (options : ChaosOptions) (kw : option string) : ChaosOptions :=
  {| latency := latency options;
     errorRate := errorRate options;
     error := error options;
     methods := methods options;
     activationKeyword := kw |}.

(** The options with [latency] replaced. *)
Definition with_latency (options : ChaosOptions) (l : option latency_option) : ChaosOptions :=
  {| latency := l;
     errorRate := errorRate options;
     error := error options;
     methods := methods options;
     activationKeyword := activationKeyword options |}.

(** The options with [errorRate] replaced. *)
Definition with_errorRate (options : ChaosOptions) (rate : option number) : ChaosOptions :=
  {| latency := latency options;
     errorRate := rate;
     error := error options;
     methods := methods options;
     activationKeyword := activationKeyword options |}.

(** [options.latency] is an array. *)
Definition is_range (l : option latency_option) : bool :=
  match l with
  | Some (Range _ _) => true
  | _ => false
  end.

(** *** More concrete inputs *)

(** [GET /api/data?chaos=true] *)
Definition chaos_true_request : GenericRequest :=
  {| method := Some "GET"%string;
     query := Some {[ "chaos"%string := VStr "true" ]} |}.

(** A request whose method is the empty string. *)
Definition empty_method_request : GenericRequest :=
  {| method := Some ""%string; query := None |}.

(** [{ latency: 250, methods: [''], errorRate: 1 }] *)
Definition empty_method_options : ChaosOptions :=
  {| latency := Some (Fixed (num_of_Z 250));
     errorRate := Some one; error := None;
     methods := Some [""%string]; activationKeyword := None |}.

(** [{ latency: [1000, 3000], activationKeyword: 'chaos', methods: ['POST'] }] *)
Definition keyword_post_options : ChaosOptions :=
  {| latency := Some (Range (num_of_Z 1000) (num_of_Z 3000));
     errorRate := None; error := None;
     methods := Some ["POST"%string]; activationKeyword := Some "chaos"%string |}.

(** [{ errorRate: 1, error: { status: 0, body: {} } }] *)
Definition zero_status_options : ChaosOptions :=
  {| latency := None; errorRate := Some one;
     error := Some {| status := zero; body := Some ∅ |};
     methods := None; activationKeyword := None |}.

(** [2], an error rate above the documented range. *)
Definition two : number := num_of_Z 2.

(** [0.25] *)
Definition quarter : number := S754_finite false (2 ^ 52) (-54).

(** Two states of the world for the Readme's options: a fresh one, and one
    with other environment variables, another stream of samples and draws
    already made. *)
Definition fresh_world : World :=
  {| process_env := ∅;
     captured_options := readme_options;
     samples := two_samples;
     cursor := 0 |}.

Definition used_world : World :=
  {| process_env := {[ "HOME"%string := "/root"%string ]};
     captured_options := readme_options;
     samples := shifted_samples;
     cursor := 0 |}.

#[local] Arguments lt : simpl never.
#[local] Arguments add : simpl never.
#[local] Arguments sub : simpl never.
#[local] Arguments mul : simpl never.
#[local] Arguments num_of_Z : simpl never.
#[local] Arguments Math_floor : simpl never.
#[local] Arguments truthy_number : simpl never.
#[local] Arguments or_default : simpl never.

Ltac run_eff :=
  cbv [mbind mret Eff_bind Eff_ret when next return_ emit console_log delay
       Math_random].

(** The properties hold for every implementation of [toUpperCase]. *)
Section Properties.

Context {SP : StringPrototype}.

Lemma chaosMiddleware_branches (options : ChaosOptions) (NODE_ENV : option string)
    (req : GenericRequest) (rng : nat -> number) (pos : nat) :
  chaosMiddleware options NODE_ENV req rng pos =
  if is_production NODE_ENV then (Returned, pos, [Next])
  else if negb (activation_gate_passes options req) then (Returned, pos, [Next])
  else if negb (method_gate_passes options req)
       then (Returned, pos, activation_log options ++ [Next])
  else if lt (rng pos) (default zero (errorRate options))
       then (Returned, S pos, activation_log options ++ error_calls options)
  else (Returned, latency_position (latency options) (S pos),
        activation_log options
          ++ latency_calls (latency options) (rng (S pos)) ++ [Next]).
Proof.
  unfold chaosMiddleware, activation_gate_passes, method_gate_passes,
    activation_log, error_calls, latency_calls, latency_position.
  destruct (is_production NODE_ENV); [reflexivity|].
  destruct (activationKeyword options) as [kw|];
    [destruct (truthy_string kw); [destruct (not_activated req kw)|]|];
    (destruct (methods options) as [ms|];
      [destruct (bool_decide (0 < length ms)%nat); [destruct (not_allowed _ _)|]|]);
    try reflexivity;
    run_eff; simpl;
    (destruct (lt (rng pos) _); simpl;
      [destruct (option_bind _ _ _ _); reflexivity|]);
    (destruct (latency options) as [[ms'|mn mx]|]; simpl;
      [destruct (truthy_number ms')| |]);
    reflexivity.
Qed.

Lemma index_chaosMiddleware_branches (options : IndexTs.ChaosOptions)
    (NODE_ENV : option string) (req : IndexTs.GenericRequest)
    (rng : nat -> number) (pos : nat) :
  IndexTs.chaosMiddleware options NODE_ENV req rng pos =
  if is_production NODE_ENV then (Returned, pos, [Next])
  else if lt (rng pos) (default zero (IndexTs.errorRate options))
       then (Returned, S pos,
             [ConsoleLog LogInjectingError; ResStatus (num_of_Z 500);
              ResEnd OnStatusResult])
  else (Returned, latency_position (IndexTs.latency options) (S pos),
        latency_calls (IndexTs.latency options) (rng (S pos)) ++ [Next]).
Proof.
  unfold IndexTs.chaosMiddleware, latency_calls, latency_position.
  destruct (is_production NODE_ENV); [reflexivity|].
  run_eff; simpl.
  destruct (lt (rng pos) _); simpl; [reflexivity|].
  destruct (IndexTs.latency options) as [[ms'|mn mx]|]; simpl;
    [destruct (truthy_number ms')| |]; reflexivity.
Qed.

(** The observations of a trace distribute over the parts of a branch. *)
Lemma next_calls_app (t1 t2 : trace) :
  next_calls (t1 ++ t2) = (next_calls t1 + next_calls t2)%nat.
Proof. unfold next_calls. now rewrite List.filter_app, length_app. Qed.

Lemma response_calls_app (t1 t2 : trace) :
  response_calls (t1 ++ t2) = response_calls t1 ++ response_calls t2.
Proof. apply List.filter_app. Qed.

Lemma delays_app (t1 t2 : trace) : delays (t1 ++ t2) = delays t1 ++ delays t2.
Proof. apply omap_app. Qed.

Lemma activation_log_silent (options : ChaosOptions) :
  next_calls (activation_log options) = 0%nat
  /\ response_calls (activation_log options) = []
  /\ delays (activation_log options) = [].
Proof.
  unfold activation_log.
  destruct (activationKeyword options) as [kw|]; [destruct (truthy_string kw)|];
    repeat split.
Qed.

Lemma latency_calls_observed (l : option latency_option) (r : number) :
  next_calls (latency_calls l r) = 0%nat
  /\ response_calls (latency_calls l r) = []
  /\ delays (latency_calls l r) = expected_delays l r.
Proof.
  unfold latency_calls, expected_delays.
  destruct l as [l|]; [destruct (truthy_latency l)|]; repeat split.
Qed.

Lemma error_calls_observed (options : ChaosOptions) :
  next_calls (error_calls options) = 0%nat
  /\ response_calls (error_calls options) =
       ResStatus (or_default (status <$> error options) (num_of_Z 500)) ::
       match error options ≫= body with
       | Some b => [ResJson b]
       | None => [ResEnd OnRes]
       end
  /\ delays (error_calls options) = [].
Proof.
  unfold error_calls.
  destruct (error options ≫= body); repeat split.
Qed.

(** Rewrites an invocation into its branches and the observations of a
    branch into those of its parts. *)
Ltac observe_branches :=
  unfold untouched, draws, position_after, calls;
  rewrite ?chaosMiddleware_branches, ?index_chaosMiddleware_branches.

Ltac observe_parts :=
  cbn [fst snd negb];
  rewrite ?next_calls_app, ?response_calls_app, ?delays_app;
  rewrite ?(fun o => proj1 (activation_log_silent o)),
    ?(fun o => proj1 (proj2 (activation_log_silent o))),
    ?(fun o => proj2 (proj2 (activation_log_silent o))),
    ?(fun l r => proj1 (latency_calls_observed l r)),
    ?(fun l r => proj1 (proj2 (latency_calls_observed l r))),
    ?(fun l r => proj2 (proj2 (latency_calls_observed l r))),
    ?(fun o => proj1 (error_calls_observed o)),
    ?(fun o => proj1 (proj2 (error_calls_observed o))),
    ?(fun o => proj2 (proj2 (error_calls_observed o))).

(** C1. Whatever the options, the request and the random samples, one
    invocation of the middleware does exactly one of two things: it sends
    the synthetic error response (a status, then the configured body as JSON
    or the end of the response) without calling [next()], or it calls
    [next()] exactly once and makes no call on the response object. *)
Theorem error_response_xor_next (options : ChaosOptions)
    (NODE_ENV : option string) (req : GenericRequest)
    (rng : nat -> number) (pos : nat) :
  let t := calls (chaosMiddleware options NODE_ENV req) rng pos in
  (sends_error_response options t /\ ~ passes_through t)
  \/ (passes_through t /\ ~ sends_error_response options t).
Proof.
  unfold sends_error_response, passes_through.
  observe_branches.
  destruct (is_production NODE_ENV);
    [|destruct (negb (activation_gate_passes options req));
      [|destruct (negb (method_gate_passes options req));
        [|destruct (lt (rng pos) _)]]];
    observe_parts; cbn;
    try (right; split; [split; reflexivity|intros [_ ?]; discriminate]).
  left. split; [split; [eexists|]; reflexivity|intros [? _]; discriminate].
Qed.

(** C2. When [process.env.NODE_ENV] is ['production'], the middleware (of
    either source file) calls [next()] exactly once, awaits no delay, makes
    no call on the response object and draws no random sample, whatever the
    options, the request and the samples. *)
Theorem production_disables_chaos (options : ChaosOptions)
    (index_options : IndexTs.ChaosOptions) (NODE_ENV : option string)
    (req : GenericRequest) (index_req : IndexTs.GenericRequest)
    (rng : nat -> number) (pos : nat) :
  NODE_ENV = Some "production"%string ->
  untouched (chaosMiddleware options NODE_ENV req) rng pos
  /\ untouched (IndexTs.chaosMiddleware index_options NODE_ENV index_req) rng pos.
Proof.
  intros ->. observe_branches.
  change (is_production (Some "production"%string)) with true.
  cbn [fst snd]. rewrite Nat.sub_diag. repeat split.
Qed.


(** A request stopped at one of the gates is handed on untouched. *)
Lemma gated_untouched (options : ChaosOptions) (NODE_ENV : option string)
    (req : GenericRequest) (rng : nat -> number) (pos : nat) :
  chaos_applies options NODE_ENV req = false ->
  untouched (chaosMiddleware options NODE_ENV req) rng pos.
Proof.
  unfold chaos_applies. intros H. observe_branches.
  destruct (is_production NODE_ENV); cbn in H;
    [|destruct (activation_gate_passes options req); cbn in H;
      [destruct (method_gate_passes options req); [discriminate|]|]];
    observe_parts; cbn -[Nat.sub]; rewrite Nat.sub_diag; repeat split.
Qed.

Lemma truthy_string_nonempty (s : string) :
  s <> EmptyString -> truthy_string s = true.
Proof.
  intros H. unfold truthy_string. now rewrite bool_decide_eq_false_2.
Qed.

Lemma not_activated_spec (req : GenericRequest) (keyword : string) :
  not_activated req keyword = true <->
  (query req = None
   \/ exists q, query req = Some q /\ q !! keyword <> Some (VStr "true")).
Proof.
  unfold not_activated.
  destruct (query req) as [q|]; [|split; [now left|reflexivity]].
  destruct (q !! keyword) as [v|] eqn:Hv.
  - split.
    + intros H. right. exists q. split; [reflexivity|].
      rewrite Hv. intros [= ->]. discriminate H.
    + intros [[=]|(q' & [= <-] & H)].
      rewrite Hv in H. destruct v; try reflexivity.
      cbn. rewrite bool_decide_eq_false_2; [reflexivity|]. congruence.
  - split; [|reflexivity].
    intros _. right. exists q. split; [reflexivity|]. now rewrite Hv.
Qed.

(** C6. If [options.activationKeyword] is a non-empty string and the
    request has no query, or its query does not map the keyword to the
    string ['true'], then chaos does not apply: [next()] is called exactly
    once and neither delay nor error is injected, whatever [errorRate],
    [latency] and the random samples. *)
Theorem activation_keyword_gate (options : ChaosOptions)
    (NODE_ENV : option string) (req : GenericRequest)
    (rng : nat -> number) (pos : nat) (keyword : string) :
  activationKeyword options = Some keyword ->
  keyword <> EmptyString ->
  (query req = None
   \/ exists q, query req = Some q /\ q !! keyword <> Some (VStr "true")) ->
  untouched (chaosMiddleware options NODE_ENV req) rng pos.
Proof.
  intros Hkw Hne Hq. apply gated_untouched.
  unfold chaos_applies, activation_gate_passes. rewrite Hkw.
  rewrite (truthy_string_nonempty _ Hne).
  apply not_activated_spec in Hq. rewrite Hq.
  now rewrite andb_false_r.
Qed.


Lemma not_allowed_spec (m : option string) (ms : list string) :
  (m = None \/ exists m', m = Some m' /\ toUpperCase m' ∉ toUpperCase <$> ms) ->
  not_allowed (toUpperCase <$> m) (toUpperCase <$> ms) = true.
Proof.
  intros [->|(m' & -> & H)]; [reflexivity|].
  cbn. rewrite (bool_decide_eq_false_2 _ H). apply orb_true_r.
Qed.

Lemma with_methods_branches (options : ChaosOptions) (ms : option (list string))
    (NODE_ENV : option string) (req : GenericRequest)
    (rng : nat -> number) (pos : nat) :
  chaosMiddleware (with_methods options ms) NODE_ENV req rng pos =
  if is_production NODE_ENV then (Returned, pos, [Next])
  else if negb (activation_gate_passes options req) then (Returned, pos, [Next])
  else if negb (method_gate_passes (with_methods options ms) req)
       then (Returned, pos, activation_log options ++ [Next])
  else if lt (rng pos) (default zero (errorRate options))
       then (Returned, S pos, activation_log options ++ error_calls options)
  else (Returned, latency_position (latency options) (S pos),
        activation_log options
          ++ latency_calls (latency options) (rng (S pos)) ++ [Next]).
Proof. exact (chaosMiddleware_branches (with_methods options ms) NODE_ENV req rng pos). Qed.

(** C7. If [options.methods] is a non-empty array and the request has no
    method, or its method in upper case is not among the configured methods
    in upper case, then chaos does not apply: [next()] is called exactly
    once and neither delay nor error is injected.  The match is
    case-insensitive on both sides: requests and method lists that agree
    after [toUpperCase] are treated alike. *)
Theorem method_gate (options : ChaosOptions) (NODE_ENV : option string)
    (rng : nat -> number) (pos : nat) :
  (forall (req : GenericRequest) (ms : list string),
      methods options = Some ms ->
      ms <> [] ->
      (method req = None
       \/ exists m, method req = Some m /\ toUpperCase m ∉ toUpperCase <$> ms) ->
      untouched (chaosMiddleware options NODE_ENV req) rng pos)
  /\ (forall (m1 m2 : option string) (ms1 ms2 : list string)
        (q : option (gmap string value)),
      toUpperCase <$> m1 = toUpperCase <$> m2 ->
      toUpperCase <$> ms1 = toUpperCase <$> ms2 ->
      chaosMiddleware (with_methods options (Some ms1)) NODE_ENV
        {| method := m1; query := q |} rng pos
      = chaosMiddleware (with_methods options (Some ms2)) NODE_ENV
          {| method := m2; query := q |} rng pos).
Proof.
  assert (Hcase : forall (m1 m2 : option string) (ms1 ms2 : list string)
            (q : option (gmap string value)),
      toUpperCase <$> m1 = toUpperCase <$> m2 ->
      toUpperCase <$> ms1 = toUpperCase <$> ms2 ->
      chaosMiddleware (with_methods options (Some ms1)) NODE_ENV
        {| method := m1; query := q |} rng pos
      = chaosMiddleware (with_methods options (Some ms2)) NODE_ENV
          {| method := m2; query := q |} rng pos).
  { intros m1 m2 ms1 ms2 q Hm Hms.
    rewrite !with_methods_branches.
    assert (Hlen : length ms1 = length ms2)
      by (rewrite <- (length_fmap toUpperCase ms1), Hms; apply length_fmap).
    unfold method_gate_passes, activation_gate_passes, not_activated.
    cbn [with_methods methods method query]. now rewrite Hm, Hms, Hlen. }
  split; [|exact Hcase].
  - intros req ms Hms Hne Hm. apply gated_untouched.
    unfold chaos_applies, method_gate_passes. rewrite Hms.
    rewrite (not_allowed_spec _ _ Hm).
    rewrite bool_decide_eq_true_2 by (destruct ms; [congruence|cbn; lia]).
    apply andb_false_r.
Qed.


(** C10. With [methods: []] the method gate filters nothing: it lets every
    request in, whatever its method and also without one, and the
    middleware behaves exactly as with [methods] omitted. *)
Theorem empty_methods_filter_nothing (options : ChaosOptions)
    (NODE_ENV : option string) (req : GenericRequest)
    (rng : nat -> number) (pos : nat) :
  method_gate_passes (with_methods options (Some [])) req = true
  /\ chaosMiddleware (with_methods options (Some [])) NODE_ENV req rng pos
     = chaosMiddleware (with_methods options None) NODE_ENV req rng pos.
Proof.
  split; [reflexivity|].
  now rewrite !with_methods_branches.
Qed.

(** What an invocation does once the three gates are passed. *)
Lemma applied_branches (options : ChaosOptions) (NODE_ENV : option string)
    (req : GenericRequest) (rng : nat -> number) (pos : nat) :
  chaos_applies options NODE_ENV req = true ->
  chaosMiddleware options NODE_ENV req rng pos =
  if lt (rng pos) (default zero (errorRate options))
  then (Returned, S pos, activation_log options ++ error_calls options)
  else (Returned, latency_position (latency options) (S pos),
        activation_log options
          ++ latency_calls (latency options) (rng (S pos)) ++ [Next]).
Proof.
  unfold chaos_applies. intros H.
  apply andb_prop in H as [H Hm]. apply andb_prop in H as [Hp Ha].
  rewrite chaosMiddleware_branches.
  apply negb_true_iff in Hp. now rewrite Hp, Ha, Hm.
Qed.

(** Past the gates, the first sample decides between the error branch and
    the latency branch. *)
Lemma applied_observations (options : ChaosOptions) (NODE_ENV : option string)
    (req : GenericRequest) (rng : nat -> number) (pos : nat) :
  chaos_applies options NODE_ENV req = true ->
  let t := calls (chaosMiddleware options NODE_ENV req) rng pos in
  if lt (rng pos) (default zero (errorRate options))
  then injects_error t /\ delays t = [] /\ next_calls t = 0%nat
  else ~ injects_error t
       /\ delays t = expected_delays (latency options) (rng (S pos))
       /\ next_calls t = 1%nat.
Proof.
  intros H. unfold injects_error, calls. rewrite (applied_branches _ _ _ _ _ H).
  destruct (lt (rng pos) _); observe_parts.
  - repeat split. discriminate.
  - split; [intros E; now apply E|]. split; [|reflexivity].
    cbn. apply app_nil_r.
Qed.

(** Past the gates, the two branches in full: the error response without
    delay, or the delay and [next()] without any call on the response. *)
Lemma applied_outcome (options : ChaosOptions) (NODE_ENV : option string)
    (req : GenericRequest) (rng : nat -> number) (pos : nat) :
  chaos_applies options NODE_ENV req = true ->
  let t := calls (chaosMiddleware options NODE_ENV req) rng pos in
  if lt (rng pos) (default zero (errorRate options))
  then sends_error_response options t /\ delays t = []
  else passes_through t
       /\ delays t = expected_delays (latency options) (rng (S pos)).
Proof.
  intros H. unfold sends_error_response, passes_through, calls.
  rewrite (applied_branches _ _ _ _ _ H).
  destruct (lt (rng pos) _); observe_parts.
  - split; [split; [eexists|]; reflexivity|reflexivity].
  - split; [split; reflexivity|]. cbn. apply app_nil_r.
Qed.

(** C3, as the code has it. When chaos applies, an invocation injects an
    error or latency and never both: if the first sample is strictly below
    [errorRate], the synthetic error response is sent (a status, then the
    configured body as JSON or the end of the response), no delay is awaited
    and [next()] is not called; otherwise no call is made on the response,
    the delay of a truthy [latency] is awaited and [next()] is called
    once. *)
Theorem error_or_latency (options : ChaosOptions) (NODE_ENV : option string)
    (req : GenericRequest) (rng : nat -> number) (pos : nat) :
  chaos_applies options NODE_ENV req = true ->
  let t := calls (chaosMiddleware options NODE_ENV req) rng pos in
  if lt (rng pos) (default zero (errorRate options))
  then sends_error_response options t /\ delays t = []
  else passes_through t
       /\ delays t = expected_delays (latency options) (rng (S pos)).
Proof. exact (applied_outcome options NODE_ENV req rng pos). Qed.


(** *** The order of binary64 values

    On well-formed finite numbers the comparison of IEEE-754 is the order of
    the exact values. *)

Lemma digits2_pos_size (m : positive) : digits2_pos m = Pos.size m.
Proof. induction m; cbn; congruence. Qed.

Lemma digits2_pos_bounds (m : positive) :
  2 ^ (Zpos (digits2_pos m) - 1) <= Zpos m < 2 ^ Zpos (digits2_pos m).
Proof.
  rewrite digits2_pos_size. split.
  - pose proof (Pos.size_le m) as H.
    assert (H' : 2 ^ Zpos (Pos.size m) <= 2 * Zpos m).
    { rewrite <- Pos2Z.inj_pow. change (2 * Z.pos m) with (Z.pos (2 * m)). apply Pos2Z.pos_le_pos. exact H. }
    replace (Zpos (Pos.size m)) with (Z.succ (Zpos (Pos.size m) - 1)) in H' by lia.
    rewrite Z.pow_succ_r in H' by lia. lia.
  - pose proof (Pos.size_gt m) as H. rewrite <- Pos2Z.inj_pow. apply Pos2Z.pos_lt_pos. exact H.
Qed.

Lemma bounded_spec (m : positive) (e : Z) :
  bounded prec emax m e = true ->
  -1074 <= e /\ Zpos m < 2 ^ 53 /\ (-1074 < e -> 2 ^ 52 <= Zpos m).
Proof.
  unfold bounded, canonical_mantissa, fexp, emin, prec, emax.
  intros H. apply andb_prop in H as [H _]. apply Z.eqb_eq in H.
  pose proof (digits2_pos_bounds m) as [Hl Hu].
  set (d := Zpos (digits2_pos m)) in *.
  assert (Hd : d <= 53) by lia.
  split; [lia|]. split.
  - eapply Z.lt_le_trans; [exact Hu|]. apply Z.pow_le_mono_r; lia.
  - intros He. assert (d = 53) by lia. subst d. rewrite H0 in Hl. exact Hl.
Qed.

Lemma lower_exponent_smaller (m1 m2 : positive) (e1 e2 : Z) :
  bounded prec emax m1 e1 = true -> bounded prec emax m2 e2 = true ->
  e1 < e2 ->
  Zpos m1 * 2 ^ (e1 + 1074) < Zpos m2 * 2 ^ (e2 + 1074).
Proof.
  intros H1 H2 He.
  apply bounded_spec in H1 as (Hm1 & Hu1 & _).
  apply bounded_spec in H2 as (Hm2 & _ & Hl2).
  specialize (Hl2 ltac:(lia)).
  replace (e2 + 1074) with ((e2 - e1 - 1) + 1 + (e1 + 1074)) by lia.
  rewrite (Z.pow_add_r 2 (e2 - e1 - 1 + 1) (e1 + 1074)),
    (Z.pow_add_r 2 (e2 - e1 - 1) 1) by lia.
  assert (0 < 2 ^ (e1 + 1074)) by (apply Z.pow_pos_nonneg; lia).
  assert (1 <= 2 ^ (e2 - e1 - 1)) by (apply (Z.pow_le_mono_r 2 0); lia).
  change (2 ^ 1) with 2.
  set (P := 2 ^ (e1 + 1074)) in *. set (K := 2 ^ (e2 - e1 - 1)) in *.
  apply Z.lt_le_trans with (2 ^ 53 * P).
  - apply Z.mul_lt_mono_pos_r; assumption.
  - replace (Z.pos m2 * (K * 2 * P)) with (Z.pos m2 * K * (2 * P)) by ring.
    change (2 ^ 53) with (2 ^ 52 * 2). rewrite <- Z.mul_assoc.
    apply Z.mul_le_mono_nonneg_r; [lia|].
    apply Z.le_trans with (Z.pos m2 * 1); [lia|].
    apply Z.mul_le_mono_nonneg_l; lia.
Qed.

Lemma exact_positive (m : positive) (e : Z) :
  bounded prec emax m e = true -> 0 < Zpos m * 2 ^ (e + 1074).
Proof.
  intros H. apply bounded_spec in H as (? & _).
  apply Z.mul_pos_pos; [lia|]. apply Z.pow_pos_nonneg; lia.
Qed.

Lemma same_exponent_order (m1 m2 : positive) (e : Z) :
  bounded prec emax m2 e = true ->
  (Zpos m1 * 2 ^ (e + 1074) ?= Zpos m2 * 2 ^ (e + 1074)) = (m1 ?= m2)%positive.
Proof.
  intros H. apply bounded_spec in H as (? & _).
  assert (0 < 2 ^ (e + 1074)) by (apply Z.pow_pos_nonneg; lia).
  rewrite <- Zmult_compare_compat_r by lia. reflexivity.
Qed.

Lemma compare_exact (m1 m2 : positive) (e1 e2 : Z) :
  bounded prec emax m1 e1 = true -> bounded prec emax m2 e2 = true ->
  match e1 ?= e2 with
  | Lt => Lt
  | Gt => Gt
  | Eq => Pos.compare_cont Eq m1 m2
  end = (Zpos m1 * 2 ^ (e1 + 1074) ?= Zpos m2 * 2 ^ (e2 + 1074)).
Proof.
  intros H1 H2. destruct (Z.compare_spec e1 e2) as [->|E|E].
  - now rewrite same_exponent_order.
  - symmetry. apply Z.compare_lt_iff. now apply lower_exponent_smaller.
  - symmetry. apply Z.compare_gt_iff. now apply lower_exponent_smaller.
Qed.

Lemma SFcompare_exact (x y : number) :
  is_double x = true -> is_double y = true ->
  is_finite x = true -> is_finite y = true ->
  SFcompare x y = Some (exact x ?= exact y).
Proof.
  destruct x as [sx|sx| |sx mx ex], y as [sy|sy| |sy my ey];
    unfold is_double; cbn [exact valid_binary is_finite];
    intros Hx Hy Fx Fy; try discriminate;
    cbn [SFcompare].
  - reflexivity.
  - pose proof (exact_positive _ _ Hy).
    set (Y := Zpos my * 2 ^ (ey + 1074)) in *. f_equal. symmetry.
    destruct sy; cbn [cond_Zopp];
      [apply Z.compare_gt_iff|apply Z.compare_lt_iff]; lia.
  - pose proof (exact_positive _ _ Hx).
    set (X := Zpos mx * 2 ^ (ex + 1074)) in *. f_equal. symmetry.
    destruct sx; cbn [cond_Zopp];
      [apply Z.compare_lt_iff|apply Z.compare_gt_iff]; lia.
  - pose proof (exact_positive _ _ Hx). pose proof (exact_positive _ _ Hy).
    pose proof (compare_exact _ _ _ _ Hx Hy) as C.
    set (X := Zpos mx * 2 ^ (ex + 1074)) in *.
    set (Y := Zpos my * 2 ^ (ey + 1074)) in *.
    f_equal. destruct sx, sy; cbn [cond_Zopp].
    + rewrite Z.compare_opp, (Z.compare_antisym X Y), <- C.
      destruct (ex ?= ey); reflexivity.
    + symmetry. apply Z.compare_lt_iff. lia.
    + symmetry. apply Z.compare_gt_iff. lia.
    + exact C.
Qed.

Lemma lt_exact (x y : number) :
  is_double x = true -> is_double y = true ->
  is_finite x = true -> is_finite y = true ->
  lt x y = true <-> exact x < exact y.
Proof.
  intros Hx Hy Fx Fy. unfold lt, SFltb. rewrite SFcompare_exact by assumption.
  destruct (Z.compare_spec (exact x) (exact y)); split;
    try discriminate; try lia; reflexivity.
Qed.

Lemma le_exact (x y : number) :
  is_double x = true -> is_double y = true ->
  is_finite x = true -> is_finite y = true ->
  le x y = true <-> exact x <= exact y.
Proof.
  intros Hx Hy Fx Fy. unfold le, SFleb. rewrite SFcompare_exact by assumption.
  destruct (Z.compare_spec (exact x) (exact y)); split;
    try discriminate; try lia; reflexivity.
Qed.

Lemma unit_interval_exact (r : number) :
  is_double r = true ->
  unit_interval r = true <-> is_finite r = true /\ 0 <= exact r < 2 ^ 1074.
Proof.
  intros Hr. unfold unit_interval. rewrite andb_true_iff.
  destruct (is_finite r) eqn:F.
  - rewrite (le_exact zero r), (lt_exact r one) by (assumption || reflexivity).
    change (exact zero) with 0. change (exact one) with (2 ^ 52 * 2 ^ 1022).
    rewrite <- Z.pow_add_r by lia. change (52 + 1022) with 1074. tauto.
  - split; [|intros [? _]; discriminate].
    destruct r as [s|[]| |s m e]; try discriminate; cbn; intros [? ?]; discriminate.
Qed.

Lemma below_zero_impossible (r : number) (s : bool) :
  le zero r = true -> lt r (S754_zero s) = false.
Proof.
  unfold le, lt, SFleb, SFltb. change zero with (S754_zero false).
  destruct r as [s'|s'| |s' m e]; try destruct s'; cbn; congruence.
Qed.

Lemma unit_interval_bounds (r : number) :
  unit_interval r = true -> le zero r = true /\ lt r one = true.
Proof. unfold unit_interval. intros H. now apply andb_prop in H. Qed.

Lemma error_decision_of_branches (t : trace) (d : nat) (rate : option number)
    (r : number) :
  (if lt r (default zero rate)
   then response_calls t <> [] /\ d = 1%nat
   else response_calls t = [] /\ (1 <= d)%nat) ->
  error_decision t d rate r.
Proof.
  unfold error_decision, injects_error.
  destruct (lt r (default zero rate)) eqn:E; intros [H Hd].
  - split; [split; [reflexivity|intros _; exact H]|].
    split; [intros D1 F1 D2 F2; rewrite <- (lt_exact _ _ D1 D2 F1 F2), E;
            split; [reflexivity|intros _; exact H]|].
    split; [lia|]. split; [intros _; exact Hd|]. split.
    + intros Hr Hrate _. apply unit_interval_bounds in Hr as [Hr _].
      destruct Hrate as [->|[s ->]]; cbn in E.
      * change zero with (S754_zero false) in E.
        rewrite (below_zero_impossible r false Hr) in E. discriminate.
      * rewrite (below_zero_impossible r s Hr) in E. discriminate.
    + intros _ _. exact H.
  - split; [split; [intros C; contradiction|discriminate]|].
    split; [intros D1 F1 D2 F2; rewrite <- (lt_exact _ _ D1 D2 F1 F2), E;
            split; [intros C; contradiction|discriminate]|].
    split; [exact Hd|]. split; [intros C; contradiction|]. split.
    + intros _ _ C. contradiction.
    + intros Hr ->. apply unit_interval_bounds in Hr as [_ Hr].
      cbn in E. congruence.
Qed.

(** C4. Once the gates are passed, the error decision compares one fresh
    sample with [errorRate ?? 0]: an error is injected exactly when the
    sample is strictly below the threshold (for finite numbers, when its
    exact value is the smaller one), and that sample is the only one drawn
    then.  Hence with [errorRate] omitted or zero no sample of [0, 1)
    leads to the error branch, and with [errorRate] one every sample of
    [0, 1) does.  The same holds of [src/index.ts], whose only gate is the
    environment. *)
Theorem error_rate_threshold (options : ChaosOptions)
    (index_options : IndexTs.ChaosOptions) (NODE_ENV : option string)
    (req : GenericRequest) (index_req : IndexTs.GenericRequest)
    (rng : nat -> number) (pos : nat) :
  (chaos_applies options NODE_ENV req = true ->
   error_decision (calls (chaosMiddleware options NODE_ENV req) rng pos)
     (draws (chaosMiddleware options NODE_ENV req) rng pos)
     (errorRate options) (rng pos))
  /\ (is_production NODE_ENV = false ->
      error_decision
        (calls (IndexTs.chaosMiddleware index_options NODE_ENV index_req) rng pos)
        (draws (IndexTs.chaosMiddleware index_options NODE_ENV index_req) rng pos)
        (IndexTs.errorRate index_options) (rng pos)).
Proof.
  split; intros H; apply error_decision_of_branches;
    unfold draws, position_after, calls.
  - rewrite (applied_branches _ _ _ _ _ H).
    destruct (lt (rng pos) _); observe_parts.
    + split; [discriminate|lia].
    + split; [reflexivity|]. unfold latency_position.
      destruct (latency options) as [l|]; [destruct (truthy_latency l)|]; lia.
  - rewrite index_chaosMiddleware_branches, H.
    destruct (lt (rng pos) _); observe_parts.
    + split; [discriminate|cbn [fst snd]; lia].
    + split; [reflexivity|]. unfold latency_position.
      destruct (IndexTs.latency index_options) as [l|];
        [destruct (truthy_latency l)|]; lia.
Qed.


(** The second half of C5 holds: a single number that is neither zero nor
    NaN is the delay awaited when no error is injected. *)
Lemma fixed_latency_exact (options : ChaosOptions) (NODE_ENV : option string)
    (req : GenericRequest) (rng : nat -> number) (pos : nat) (ms : number) :
  chaos_applies options NODE_ENV req = true ->
  lt (rng pos) (default zero (errorRate options)) = false ->
  latency options = Some (Fixed ms) ->
  truthy_number ms = true ->
  delays (calls (chaosMiddleware options NODE_ENV req) rng pos) = [ms].
Proof.
  intros H Hr Hl Hms.
  pose proof (applied_observations options NODE_ENV req rng pos H) as E.
  cbv zeta in E. rewrite Hr in E. destruct E as (_ & -> & _).
  rewrite Hl. cbn. now rewrite Hms.
Qed.

(** The outcome of an invocation depends on the sample stream only through
    the samples it draws. *)
Lemma invocation_reads_its_samples (options : ChaosOptions)
    (NODE_ENV : option string) (req : GenericRequest)
    (rng1 rng2 : nat -> number) (pos1 pos2 : nat) :
  (forall k, (k < draws (chaosMiddleware options NODE_ENV req) rng1 pos1)%nat ->
             rng1 (pos1 + k)%nat = rng2 (pos2 + k)%nat) ->
  calls (chaosMiddleware options NODE_ENV req) rng1 pos1
  = calls (chaosMiddleware options NODE_ENV req) rng2 pos2
  /\ draws (chaosMiddleware options NODE_ENV req) rng1 pos1
     = draws (chaosMiddleware options NODE_ENV req) rng2 pos2.
Proof.
  unfold draws, position_after, calls. rewrite !chaosMiddleware_branches.
  destruct (is_production NODE_ENV);
    [|destruct (negb (activation_gate_passes options req));
      [|destruct (negb (method_gate_passes options req))]];
    cbn [fst snd]; try (intros _; split; [reflexivity|lia]).
  intros H.
  assert (H0 : rng1 pos1 = rng2 pos2).
  { rewrite <- (Nat.add_0_r pos1), <- (Nat.add_0_r pos2). apply H.
    destruct (lt (rng1 pos1) _); cbn [fst snd]; [lia|].
    unfold latency_position.
    destruct (latency options) as [l|]; [destruct (truthy_latency l)|]; lia. }
  rewrite <- H0 in *.
  destruct (lt (rng1 pos1) _); cbn [fst snd] in *; [split; [reflexivity|lia]|].
  unfold latency_position, latency_calls in *.
  destruct (latency options) as [[ms|mn mx]|]; cbn [truthy_latency] in *;
    [destruct (truthy_number ms)| |]; cbn [latency_ms latency_draws] in *;
    try (split; [reflexivity|lia]).
  assert (H1 : rng1 (S pos1) = rng2 (S pos2)).
  { rewrite <- (Nat.add_1_r pos1), <- (Nat.add_1_r pos2). apply H. lia. }
  rewrite H1. split; [reflexivity|lia].
Qed.

Ltac run_prog :=
  cbv [mbind mret Prog_bind Prog_ret Closure.when Closure.next Closure.return_
       Closure.emit Closure.console_log Closure.delay Closure.Math_random
       Closure.env_get Closure.options_get].

(** The program over the state does what the body does on the values it
    reads at the start, and assigns only to the cursor of the generator. *)
Lemma closure_runs_body (req : GenericRequest) (w : World) :
  Closure.chaosMiddleware req w =
  let run :=
    chaosMiddleware (captured_options w) (process_env w !! "NODE_ENV"%string) req
      (samples w) (cursor w) in
  (fst (fst run),
   {| process_env := process_env w;
      captured_options := captured_options w;
      samples := samples w;
      cursor := snd (fst run) |},
   snd run).
Proof.
  destruct w as [env options rng pos]. cbv zeta.
  cbn [process_env captured_options samples cursor].
  rewrite chaosMiddleware_branches.
  unfold Closure.chaosMiddleware, activation_gate_passes, method_gate_passes,
    activation_log, error_calls, latency_calls, latency_position.
  run_prog. cbv [process_env captured_options samples cursor].
  destruct (is_production (env !! "NODE_ENV"%string)); [reflexivity|].
  destruct (activationKeyword options) as [kw|];
    [destruct (truthy_string kw); [destruct (not_activated req kw)|]|];
    (destruct (methods options) as [ms|];
      [destruct (bool_decide (0 < length ms)%nat); [destruct (not_allowed _ _)|]|]);
    try reflexivity;
    simpl;
    (destruct (lt (rng pos) _); simpl;
      [destruct (option_bind _ _ _ _); reflexivity|]);
    (destruct (latency options) as [[ms'|mn mx]|]; simpl;
      [destruct (truthy_number ms')| |]);
    reflexivity.
Qed.

Lemma closure_calls (req : GenericRequest) (w : World) :
  Closure.calls (Closure.chaosMiddleware req) w
  = calls (chaosMiddleware (captured_options w) (process_env w !! "NODE_ENV"%string) req)
      (samples w) (cursor w).
Proof. unfold Closure.calls, calls. now rewrite closure_runs_body. Qed.

Lemma closure_draws (req : GenericRequest) (w : World) :
  Closure.draws (Closure.chaosMiddleware req) w
  = draws (chaosMiddleware (captured_options w) (process_env w !! "NODE_ENV"%string) req)
      (samples w) (cursor w).
Proof.
  unfold Closure.draws, Closure.world_after, draws, position_after.
  now rewrite closure_runs_body.
Qed.

(** An invocation assigns neither to [process.env] nor to the options
    object, and leaves the generator's future alone.  Not every program
    over the state does: one that counted its requests in the options
    object, or lowered [errorRate] after an error, would not. *)
Lemma closure_frame (req : GenericRequest) (w : World) :
  process_env (Closure.world_after (Closure.chaosMiddleware req) w) = process_env w
  /\ captured_options (Closure.world_after (Closure.chaosMiddleware req) w)
     = captured_options w
  /\ samples (Closure.world_after (Closure.chaosMiddleware req) w) = samples w.
Proof.
  unfold Closure.world_after. rewrite closure_runs_body. now repeat split.
Qed.

Lemma serve_frame (requests : list GenericRequest) (w : World) :
  process_env (Closure.serve requests w) = process_env w
  /\ captured_options (Closure.serve requests w) = captured_options w
  /\ samples (Closure.serve requests w) = samples w.
Proof.
  revert w. induction requests as [|req rest IH]; intros w; [now repeat split|].
  cbn [Closure.serve].
  destruct (IH (Closure.world_after (Closure.chaosMiddleware req) w)) as (E1 & E2 & E3).
  destruct (closure_frame req w) as (F1 & F2 & F3).
  rewrite E1, E2, E3. now repeat split.
Qed.

(** C8. The middleware keeps no state between invocations.  Take two
    states of the world in which the options object and [NODE_ENV] are the
    same, and let the one closure serve any two histories of requests from
    them.  Neither history has assigned to [process.env] or to the options
    object; and an invocation made after the one, and an invocation for the
    same request made after the other, make the same calls (status, body,
    delay, [next()]) and draw as many samples, provided the samples they
    draw are the same. *)
Theorem closure_keeps_no_state (history1 history2 : list GenericRequest)
    (req : GenericRequest) (w1 w2 : World) :
  captured_options w1 = captured_options w2 ->
  process_env w1 !! "NODE_ENV"%string = process_env w2 !! "NODE_ENV"%string ->
  let after1 := Closure.serve history1 w1 in
  let after2 := Closure.serve history2 w2 in
  (forall k, (k < Closure.draws (Closure.chaosMiddleware req) after1)%nat ->
             samples w1 (cursor after1 + k)%nat = samples w2 (cursor after2 + k)%nat) ->
  (process_env after1 = process_env w1
   /\ captured_options after1 = captured_options w1)
  /\ (process_env after2 = process_env w2
      /\ captured_options after2 = captured_options w2)
  /\ Closure.calls (Closure.chaosMiddleware req) after1
     = Closure.calls (Closure.chaosMiddleware req) after2
  /\ Closure.draws (Closure.chaosMiddleware req) after1
     = Closure.draws (Closure.chaosMiddleware req) after2.
Proof.
  intros Ho He after1 after2 Hs.
  destruct (serve_frame history1 w1) as (E1 & O1 & S1).
  destruct (serve_frame history2 w2) as (E2 & O2 & S2).
  fold after1 in E1, O1, S1. fold after2 in E2, O2, S2.
  split; [now split|]. split; [now split|].
  rewrite closure_draws in Hs. rewrite !closure_calls, !closure_draws.
  rewrite E1, O1, S1 in *. rewrite E2, O2, S2. rewrite <- Ho, <- He.
  now apply invocation_reads_its_samples.
Qed.


(** C9. On options without [error], [methods] and [activationKeyword], the
    middleware of [src/index.ts] and the five-option middleware are
    observationally equivalent: with the same [NODE_ENV], request and random
    samples they call [next()] as often, set the same status, terminate the
    response the same way, await the same delay and draw as many samples;
    their calls are the same one by one once [res.status(500).end()] is read
    as a call of [end] on the response. *)
Theorem index_ts_equivalent (options : ChaosOptions) (NODE_ENV : option string)
    (req : GenericRequest) (rng : nat -> number) (pos : nat) :
  error options = None ->
  methods options = None ->
  activationKeyword options = None ->
  let full := chaosMiddleware options NODE_ENV req in
  let index :=
    IndexTs.chaosMiddleware (to_index_options options) NODE_ENV
      (to_index_request req) in
  observe (calls full rng pos) = observe (calls index rng pos)
  /\ draws full rng pos = draws index rng pos
  /\ calls full rng pos = on_response <$> calls index rng pos.
Proof.
  intros He Hm Ha. unfold draws, position_after, calls.
  rewrite chaosMiddleware_branches, index_chaosMiddleware_branches.
  unfold activation_gate_passes, method_gate_passes, activation_log, error_calls.
  rewrite He, Hm, Ha. cbn [negb to_index_options IndexTs.latency IndexTs.errorRate].
  destruct (is_production NODE_ENV); [repeat split|].
  destruct (lt (rng pos) _); [repeat split|].
  cbn [fst snd app]. split; [reflexivity|]. split; [reflexivity|].
  rewrite fmap_app. cbn.
  unfold latency_calls.
  destruct (latency options) as [l|]; [destruct (truthy_latency l)|]; reflexivity.
Qed.


(** ** Further properties of the five-option middleware *)

(** The gates do not depend on the options that [with_latency] and
    [with_errorRate] replace. *)
Lemma chaos_applies_with_latency (options : ChaosOptions) (l : option latency_option)
    (NODE_ENV : option string) (req : GenericRequest) :
  chaos_applies (with_latency options l) NODE_ENV req
  = chaos_applies options NODE_ENV req.
Proof. reflexivity. Qed.

Lemma chaos_applies_with_errorRate (options : ChaosOptions) (rate : option number)
    (NODE_ENV : option string) (req : GenericRequest) :
  chaos_applies (with_errorRate options rate) NODE_ENV req
  = chaos_applies options NODE_ENV req.
Proof. reflexivity. Qed.

(** X1. The environment check is an exact, case-sensitive comparison: with
    [NODE_ENV] set to anything but ['production'] (['Production'], ['prod'],
    ['test'], ...) the middleware behaves as with [NODE_ENV] unset. *)
Theorem only_production_disables (options : ChaosOptions)
    (NODE_ENV : option string) (req : GenericRequest)
    (rng : nat -> number) (pos : nat) :
  NODE_ENV <> Some "production"%string ->
  chaosMiddleware options NODE_ENV req rng pos
  = chaosMiddleware options None req rng pos.
Proof.
  intros H. rewrite !chaosMiddleware_branches.
  unfold is_production. rewrite (bool_decide_eq_false_2 _ H).
  now rewrite bool_decide_eq_false_2 by discriminate.
Qed.


(** X2. An empty [activationKeyword] is falsy: the activation gate is
    skipped and nothing is logged, exactly as with the option omitted, so a
    request without any query string is exposed to chaos. *)
Theorem empty_keyword_is_no_gate (options : ChaosOptions)
    (NODE_ENV : option string) (req : GenericRequest)
    (rng : nat -> number) (pos : nat) :
  chaosMiddleware (with_activationKeyword options (Some ""%string)) NODE_ENV req rng pos
  = chaosMiddleware (with_activationKeyword options None) NODE_ENV req rng pos.
Proof. now rewrite !chaosMiddleware_branches. Qed.

(** With the keyword switched on in the query, the activation gate passes. *)
Lemma activated_gate_passes (options : ChaosOptions) (req : GenericRequest)
    (keyword : string) (q : gmap string value) :
  activationKeyword options = Some keyword ->
  query req = Some q ->
  q !! keyword = Some (VStr "true") ->
  activation_gate_passes options req = true.
Proof.
  intros Hk Hq Hv. unfold activation_gate_passes, not_activated.
  rewrite Hk, Hq, Hv. cbn. rewrite bool_decide_eq_true_2 by reflexivity.
  apply orb_true_r.
Qed.

(** X3. When the query maps a non-empty [activationKeyword] to ['true'],
    and outside production, the middleware logs the activation line first
    and then does exactly what it does without the option: same calls, same
    samples drawn. *)
Theorem activated_is_log_then_ungated (options : ChaosOptions)
    (NODE_ENV : option string) (req : GenericRequest)
    (rng : nat -> number) (pos : nat) (keyword : string) (q : gmap string value) :
  NODE_ENV <> Some "production"%string ->
  activationKeyword options = Some keyword ->
  keyword <> EmptyString ->
  query req = Some q ->
  q !! keyword = Some (VStr "true") ->
  calls (chaosMiddleware options NODE_ENV req) rng pos
  = ConsoleLog (LogActivated keyword)
      :: calls (chaosMiddleware (with_activationKeyword options None) NODE_ENV req) rng pos
  /\ position_after (chaosMiddleware options NODE_ENV req) rng pos
     = position_after
         (chaosMiddleware (with_activationKeyword options None) NODE_ENV req) rng pos.
Proof.
  intros Hp Hk Hne Hq Hv. unfold calls, position_after.
  rewrite !chaosMiddleware_branches.
  unfold is_production. rewrite (bool_decide_eq_false_2 _ Hp).
  rewrite (activated_gate_passes options req keyword q Hk Hq Hv).
  change (activation_gate_passes (with_activationKeyword options None) req) with true.
  change (method_gate_passes (with_activationKeyword options None) req)
    with (method_gate_passes options req).
  unfold activation_log. rewrite Hk, (truthy_string_nonempty _ Hne).
  cbn [negb with_activationKeyword activationKeyword errorRate latency].
  change (error_calls (with_activationKeyword options None))
    with (error_calls options).
  destruct (negb (method_gate_passes options req)); [split; reflexivity|].
  destruct (lt (rng pos) _); split; reflexivity.
Qed.


(** X4. The activation line is logged before the method gate is consulted:
    a request that switches chaos on but whose method is filtered out still
    logs the line, and then only calls [next()]. *)
Theorem activation_logged_before_method_gate (options : ChaosOptions)
    (NODE_ENV : option string) (req : GenericRequest)
    (rng : nat -> number) (pos : nat) (keyword : string) (q : gmap string value) :
  NODE_ENV <> Some "production"%string ->
  activationKeyword options = Some keyword ->
  keyword <> EmptyString ->
  query req = Some q ->
  q !! keyword = Some (VStr "true") ->
  method_gate_passes options req = false ->
  calls (chaosMiddleware options NODE_ENV req) rng pos
  = [ConsoleLog (LogActivated keyword); Next]
  /\ draws (chaosMiddleware options NODE_ENV req) rng pos = 0%nat.
Proof.
  intros Hp Hk Hne Hq Hv Hm. unfold draws, calls, position_after.
  rewrite !chaosMiddleware_branches.
  unfold is_production. rewrite (bool_decide_eq_false_2 _ Hp).
  rewrite (activated_gate_passes options req keyword q Hk Hq Hv), Hm.
  unfold activation_log. rewrite Hk, (truthy_string_nonempty _ Hne).
  cbn. split; [reflexivity|lia].
Qed.


(** X5. A request whose method is the empty string never passes a
    non-empty [methods] filter, even when the filter lists the empty
    string: [!reqMethod] rejects it before the list is searched. *)
Theorem empty_method_never_allowed (options : ChaosOptions)
    (NODE_ENV : option string) (req : GenericRequest)
    (rng : nat -> number) (pos : nat) (ms : list string) :
  methods options = Some ms ->
  ms <> [] ->
  method req = Some ""%string ->
  untouched (chaosMiddleware options NODE_ENV req) rng pos.
Proof.
  intros Hms Hne Hm. apply gated_untouched.
  unfold chaos_applies, method_gate_passes. rewrite Hms, Hm.
  rewrite bool_decide_eq_true_2 by (destruct ms; [congruence|cbn; lia]).
  cbn [fmap option_fmap option_map not_allowed]. rewrite toUpperCase_empty.
  cbn. apply andb_false_r.
Qed.


(** X6. A request whose method is not empty and, in upper case, is among
    the configured methods in upper case passes the method gate: the
    middleware then behaves exactly as with [methods] omitted. *)
Theorem listed_method_is_unfiltered (options : ChaosOptions)
    (NODE_ENV : option string) (req : GenericRequest)
    (rng : nat -> number) (pos : nat) (ms : list string) (m : string) :
  methods options = Some ms ->
  method req = Some m ->
  m <> EmptyString ->
  toUpperCase m ∈ toUpperCase <$> ms ->
  chaosMiddleware options NODE_ENV req rng pos
  = chaosMiddleware (with_methods options None) NODE_ENV req rng pos.
Proof.
  intros Hms Hm Hne Hin.
  rewrite with_methods_branches, chaosMiddleware_branches.
  assert (Hg : method_gate_passes options req = true).
  { unfold method_gate_passes, not_allowed. rewrite Hms, Hm. cbn.
    assert (Hu : toUpperCase m <> EmptyString) by (now apply toUpperCase_nonempty).
    rewrite (truthy_string_nonempty _ Hu), (bool_decide_eq_true_2 _ Hin).
    apply orb_true_r. }
  rewrite Hg. reflexivity.
Qed.


Lemma statuses_app (t1 t2 : trace) :
  statuses (t1 ++ t2) = statuses t1 ++ statuses t2.
Proof. apply omap_app. Qed.

Lemma terminations_app (t1 t2 : trace) :
  terminations (t1 ++ t2) = terminations t1 ++ terminations t2.
Proof. apply omap_app. Qed.

Lemma activation_log_no_response (options : ChaosOptions) :
  statuses (activation_log options) = []
  /\ terminations (activation_log options) = [].
Proof.
  unfold activation_log.
  destruct (activationKeyword options) as [kw|]; [destruct (truthy_string kw)|];
    split; reflexivity.
Qed.

(** X7. The status of the synthetic error falls back to 500 whenever the
    configured one is falsy: with [error] omitted the response gets status
    500 and is ended; with a status of [0] or [NaN] it gets 500 too, and the
    configured body is still sent; any other status is used as it is. *)
Theorem error_status_default (options : ChaosOptions) (NODE_ENV : option string)
    (req : GenericRequest) (rng : nat -> number) (pos : nat) :
  chaos_applies options NODE_ENV req = true ->
  lt (rng pos) (default zero (errorRate options)) = true ->
  let t := calls (chaosMiddleware options NODE_ENV req) rng pos in
  (error options = None ->
   statuses t = [num_of_Z 500] /\ terminations t = [ByEnd])
  /\ (forall e, error options = Some e ->
        truthy_number (status e) = false ->
        statuses t = [num_of_Z 500]
        /\ terminations t = [match body e with Some b => ByJson b | None => ByEnd end])
  /\ (forall e, error options = Some e ->
        truthy_number (status e) = true ->
        statuses t = [status e]
        /\ terminations t = [match body e with Some b => ByJson b | None => ByEnd end]).
Proof.
  intros H Hr. unfold calls. rewrite (applied_branches _ _ _ _ _ H), Hr.
  cbn [snd]. rewrite statuses_app, terminations_app.
  rewrite (proj1 (activation_log_no_response options)),
    (proj2 (activation_log_no_response options)).
  cbn [app]. unfold error_calls.
  split; [|split].
  - intros ->. split; reflexivity.
  - intros e -> He. cbn. unfold or_default. rewrite He.
    destruct (body e); split; reflexivity.
  - intros e -> He. cbn. unfold or_default. rewrite He.
    destruct (body e); split; reflexivity.
Qed.


(** X8. A single-number [latency] of [0], [-0] or [NaN] is falsy: nothing
    is logged or awaited, and the middleware behaves exactly as with
    [latency] omitted. *)
Theorem falsy_latency_is_no_latency (options : ChaosOptions)
    (NODE_ENV : option string) (req : GenericRequest)
    (rng : nat -> number) (pos : nat) (ms : number) :
  truthy_number ms = false ->
  chaosMiddleware (with_latency options (Some (Fixed ms))) NODE_ENV req rng pos
  = chaosMiddleware (with_latency options None) NODE_ENV req rng pos.
Proof.
  intros H. rewrite !chaosMiddleware_branches.
  unfold latency_position, latency_calls.
  cbn [with_latency latency truthy_latency]. now rewrite H.
Qed.


(** X9. An array [latency] is always truthy: when chaos applies and no
    error is injected, exactly one delay is logged and awaited, whatever the
    two bounds are, [0, 0] included, and a second sample is drawn for it. *)
Theorem range_latency_always_delays (options : ChaosOptions)
    (NODE_ENV : option string) (req : GenericRequest)
    (rng : nat -> number) (pos : nat) (min max : number) :
  chaos_applies options NODE_ENV req = true ->
  lt (rng pos) (default zero (errorRate options)) = false ->
  latency options = Some (Range min max) ->
  delays (calls (chaosMiddleware options NODE_ENV req) rng pos)
  = [Math_floor (add (mul (rng (S pos)) (add (sub max min) (num_of_Z 1))) min)]
  /\ draws (chaosMiddleware options NODE_ENV req) rng pos = 2%nat.
Proof.
  intros H Hr Hl. unfold draws, position_after, calls.
  rewrite (applied_branches _ _ _ _ _ H), Hr, Hl. observe_parts.
  cbn. split; [reflexivity|lia].
Qed.


(** The samples an invocation draws, branch by branch. *)
Lemma draws_branches (options : ChaosOptions) (NODE_ENV : option string)
    (req : GenericRequest) (rng : nat -> number) (pos : nat) :
  draws (chaosMiddleware options NODE_ENV req) rng pos =
  if negb (chaos_applies options NODE_ENV req) then 0%nat
  else if lt (rng pos) (default zero (errorRate options)) then 1%nat
  else if is_range (latency options) then 2%nat
  else 1%nat.
Proof.
  unfold draws, position_after, chaos_applies. rewrite chaosMiddleware_branches.
  destruct (is_production NODE_ENV); cbn [negb andb fst snd]; [lia|].
  destruct (activation_gate_passes options req); cbn [negb andb fst snd]; [|lia].
  destruct (method_gate_passes options req); cbn [negb andb fst snd]; [|lia].
  destruct (lt (rng pos) _); cbn [fst snd]; [lia|].
  unfold latency_position.
  destruct (latency options) as [[ms|mn mx]|]; cbn;
    [destruct (truthy_number ms)| |]; lia.
Qed.

(** X10. An invocation draws random samples sparingly: none when a gate
    stops the request, one when the error is injected or when [latency] is
    not an array, two when no error is injected and [latency] is an array;
    never more than two. *)
Theorem sample_budget (options : ChaosOptions) (NODE_ENV : option string)
    (req : GenericRequest) (rng : nat -> number) (pos : nat) :
  let d := draws (chaosMiddleware options NODE_ENV req) rng pos in
  (d <= 2)%nat
  /\ (d = 0%nat <-> chaos_applies options NODE_ENV req = false)
  /\ (d = 2%nat <->
      chaos_applies options NODE_ENV req = true
      /\ lt (rng pos) (default zero (errorRate options)) = false
      /\ is_range (latency options) = true).
Proof.
  cbv zeta. rewrite draws_branches.
  destruct (chaos_applies options NODE_ENV req); cbn [negb].
  - destruct (lt (rng pos) _); [|destruct (is_range (latency options))];
      (split; [lia|]); (split; split); try discriminate; try tauto;
      try (intros (_ & ? & ?); discriminate).
  - split; [lia|]. split; split; try reflexivity; try discriminate.
    intros (? & _). discriminate.
Qed.

(** X11. A server that hands [n] requests to one middleware advances the
    stream of random samples by at most [2 n] positions, and never moves it
    backwards. *)
Theorem serve_sample_budget (options : ChaosOptions)
    (requests : list (option string * GenericRequest))
    (rng : nat -> number) (pos : nat) :
  (pos <= serve (chaosMiddleware options) rng pos requests
       <= pos + 2 * length requests)%nat.
Proof.
  revert pos. induction requests as [|[env req] rest IH]; intros pos.
  - cbn. lia.
  - cbn [serve length].
    pose proof (draws_branches options env req rng pos) as D.
    assert (Hp : (pos <= position_after (chaosMiddleware options env req) rng pos)%nat).
    { unfold position_after. rewrite chaosMiddleware_branches.
      destruct (is_production env); cbn [fst snd]; [lia|].
      destruct (negb (activation_gate_passes options req)); cbn [fst snd]; [lia|].
      destruct (negb (method_gate_passes options req)); cbn [fst snd]; [lia|].
      destruct (lt (rng pos) _); cbn [fst snd]; [lia|].
      unfold latency_position.
      destruct (latency options) as [l|]; [destruct (truthy_latency l)|]; lia. }
    assert (Hd : (draws (chaosMiddleware options env req) rng pos <= 2)%nat).
    { rewrite D. destruct (negb _); [lia|]. destruct (lt _ _); [lia|].
      destruct (is_range _); lia. }
    unfold draws in Hd.
    specialize (IH (position_after (chaosMiddleware options env req) rng pos)).
    lia.
Qed.

Lemma activation_log_no_delay (options : ChaosOptions) (ms : number) :
  Delay ms ∉ activation_log options.
Proof.
  unfold activation_log.
  destruct (activationKeyword options) as [kw|]; [destruct (truthy_string kw)|];
    intros H; repeat (apply elem_of_cons in H as [H|H]; [discriminate H|]);
    now apply elem_of_nil in H.
Qed.

(** X12. Effects come in a fixed order. An invocation that calls [next()]
    calls it last; and a delay that is awaited has been announced on the
    console with the same number of milliseconds and is followed by
    [next()] directly: the downstream handler never runs before the delay
    has passed. *)
Theorem delay_then_next (options : ChaosOptions) (NODE_ENV : option string)
    (req : GenericRequest) (rng : nat -> number) (pos : nat) :
  let t := calls (chaosMiddleware options NODE_ENV req) rng pos in
  (next_calls t = 1%nat -> last t = Some Next)
  /\ (forall ms, Delay ms ∈ t ->
        exists before,
          t = before ++ [ConsoleLog (LogDelaying ms); Delay ms; Next]).
Proof.
  cbv zeta. unfold calls. rewrite chaosMiddleware_branches.
  destruct (is_production NODE_ENV); cbn [fst snd];
    [|destruct (negb (activation_gate_passes options req)); cbn [fst snd];
      [|destruct (negb (method_gate_passes options req)); cbn [fst snd];
        [|destruct (lt (rng pos) _); cbn [fst snd]]]].
  - split; [reflexivity|]. intros ms H.
    apply elem_of_cons in H as [H|H]; [discriminate H|now apply elem_of_nil in H].
  - split; [reflexivity|]. intros ms H.
    apply elem_of_cons in H as [H|H]; [discriminate H|now apply elem_of_nil in H].
  - split; [intros _; apply last_snoc|]. intros ms H.
    apply elem_of_app in H as [H|H]; [now apply activation_log_no_delay in H|].
    apply elem_of_cons in H as [H|H]; [discriminate H|now apply elem_of_nil in H].
  - split.
    + observe_parts. discriminate.
    + intros ms H.
      apply elem_of_app in H as [H|H]; [now apply activation_log_no_delay in H|].
      unfold error_calls in H.
      repeat (apply elem_of_cons in H as [H|H];
              [destruct (error options ≫= body); discriminate H|]).
      now apply elem_of_nil in H.
  - split; [intros _; rewrite app_assoc; apply last_snoc|]. intros ms H.
    apply elem_of_app in H as [H|H]; [now apply activation_log_no_delay in H|].
    unfold latency_calls in *.
    destruct (latency options) as [l|]; [destruct (truthy_latency l)|]; cbn in H.
    + apply elem_of_cons in H as [H|H]; [discriminate H|].
      apply elem_of_cons in H as [H|H].
      * injection H as ->. exists (activation_log options). reflexivity.
      * apply elem_of_cons in H as [H|H]; [discriminate H|now apply elem_of_nil in H].
    + apply elem_of_cons in H as [H|H]; [discriminate H|now apply elem_of_nil in H].
    + apply elem_of_cons in H as [H|H]; [discriminate H|now apply elem_of_nil in H].
Qed.

(** Past the gates, an error is injected exactly when the first sample is
    below the rate. *)
Lemma injects_iff_below (options : ChaosOptions) (NODE_ENV : option string)
    (req : GenericRequest) (rng : nat -> number) (pos : nat) :
  chaos_applies options NODE_ENV req = true ->
  injects_error (calls (chaosMiddleware options NODE_ENV req) rng pos)
  <-> lt (rng pos) (default zero (errorRate options)) = true.
Proof.
  intros H. pose proof (applied_observations options NODE_ENV req rng pos H) as E.
  cbv zeta in E. destruct (lt (rng pos) _).
  - destruct E as (E & _). split; [reflexivity|intros _; exact E].
  - destruct E as (E & _). split; [intros C; contradiction|discriminate].
Qed.

(** X13. An [errorRate] outside the documented range from 0 to 1 is not
    rejected; it acts as the nearest end of the range.  For every sample of
    [0, 1): a rate that is [NaN], negative, zero or minus infinity never
    injects an error, and a rate of one or more, or plus infinity, always
    does. *)
Theorem error_rate_outside_range (options : ChaosOptions)
    (NODE_ENV : option string) (req : GenericRequest)
    (rng : nat -> number) (pos : nat) (rate : number) :
  chaos_applies options NODE_ENV req = true ->
  errorRate options = Some rate ->
  is_double (rng pos) = true ->
  unit_interval (rng pos) = true ->
  let t := calls (chaosMiddleware options NODE_ENV req) rng pos in
  (rate = S754_nan \/ rate = S754_infinity true -> ~ injects_error t)
  /\ (is_double rate = true -> is_finite rate = true -> exact rate <= 0 ->
      ~ injects_error t)
  /\ (is_double rate = true -> is_finite rate = true -> 2 ^ 1074 <= exact rate ->
      injects_error t)
  /\ (rate = S754_infinity false -> injects_error t).
Proof.
  intros H Hrate Hd Hu. cbv zeta.
  rewrite (injects_iff_below options NODE_ENV req rng pos H), Hrate.
  cbn [default from_option id].
  apply (unit_interval_exact _ Hd) in Hu as (Hf & H0 & H1).
  split; [|split; [|split]].
  - intros [->| ->]; destruct (rng pos) as [s|[]| |[] m e]; try discriminate;
      unfold lt, SFltb; cbn; discriminate.
  - intros Dr Fr Hle. rewrite (lt_exact _ _ Hd Dr Hf Fr). lia.
  - intros Dr Fr Hge. rewrite (lt_exact _ _ Hd Dr Hf Fr). lia.
  - intros ->. destruct (rng pos) as [s|[]| |[] m e]; try discriminate; reflexivity.
Qed.


(** X14. Raising [errorRate] never turns an injected error into a pass:
    with everything else unchanged, in particular the random samples, a
    request that gets the error response under a finite rate gets it under
    every larger finite rate. *)
Theorem error_rate_monotone (options : ChaosOptions) (NODE_ENV : option string)
    (req : GenericRequest) (rng : nat -> number) (pos : nat) (p q : number) :
  is_double (rng pos) = true ->
  is_double p = true -> is_finite p = true ->
  is_double q = true -> is_finite q = true ->
  exact p <= exact q ->
  injects_error
    (calls (chaosMiddleware (with_errorRate options (Some p)) NODE_ENV req) rng pos) ->
  injects_error
    (calls (chaosMiddleware (with_errorRate options (Some q)) NODE_ENV req) rng pos).
Proof.
  intros Dr Dp Fp Dq Fq Hpq Hinj.
  destruct (chaos_applies options NODE_ENV req) eqn:H.
  - rewrite injects_iff_below in * by (rewrite chaos_applies_with_errorRate; exact H).
    cbn [with_errorRate errorRate default from_option id] in *.
    destruct (is_finite (rng pos)) eqn:Fr.
    + rewrite (lt_exact _ _ Dr Dp Fr Fp) in Hinj.
      rewrite (lt_exact _ _ Dr Dq Fr Fq). lia.
    + destruct (rng pos) as [s|[]| |s m e]; try discriminate;
        destruct p as [sp|sp| |sp mp ep]; try discriminate;
        destruct q as [sq|sq| |sq mq eq]; try discriminate; reflexivity.
  - exfalso. apply Hinj.
    apply (gated_untouched (with_errorRate options (Some p)) NODE_ENV req rng pos).
    rewrite chaos_applies_with_errorRate. exact H.
Qed.


(** X15. The lower end of an array [latency] is reached without rounding:
    when the sample of the latency branch is zero and the width
    [max - min + 1] has not overflowed, the delay is [Math.floor(min)] for a
    non-zero [min], and zero for a zero [min]. *)
Theorem zero_sample_delays_floor_min (options : ChaosOptions)
    (NODE_ENV : option string) (req : GenericRequest)
    (rng : nat -> number) (pos : nat) (min max : number) (s : bool) :
  chaos_applies options NODE_ENV req = true ->
  lt (rng pos) (default zero (errorRate options)) = false ->
  latency options = Some (Range min max) ->
  rng (S pos) = S754_zero s ->
  is_finite (add (sub max min) (num_of_Z 1)) = true ->
  is_finite min = true ->
  exists d,
    delays (calls (chaosMiddleware options NODE_ENV req) rng pos) = [d]
    /\ (forall sm mm em, min = S754_finite sm mm em -> d = Math_floor min)
    /\ (forall sm, min = S754_zero sm -> exists sd, d = S754_zero sd).
Proof.
  intros H Hr Hl Hz Hw Hmin.
  pose proof (applied_observations options NODE_ENV req rng pos H) as E.
  cbv zeta in E. rewrite Hr, Hl, Hz in E. destruct E as (_ & E & _).
  eexists. split; [exact E|].
  cbn [latency_ms].
  destruct (add (sub max min) (num_of_Z 1)) as [sw|sw| |sw mw ew]; try discriminate;
    destruct min as [sm'|sm'| |sm' mm' em']; try discriminate;
    (split; [intros sm mm em [=]; subst; reflexivity
            |intros sm [=]; subst]).
  all: unfold mul, add; cbn [SFmul SFadd xorb].
  all: destruct s, sw, sm; eexists; reflexivity.
Qed.


(** X16. Options that configure neither an error rate nor a latency make
    the middleware transparent: with [errorRate] omitted or zero and
    [latency] omitted or falsy, every request is handed on by one call of
    [next()], without delay and without any call on the response, whatever
    sample of [0, 1) is drawn. *)
Theorem inert_options_pass_through (options : ChaosOptions)
    (NODE_ENV : option string) (req : GenericRequest)
    (rng : nat -> number) (pos : nat) :
  (errorRate options = None \/ exists s, errorRate options = Some (S754_zero s)) ->
  (latency options = None
   \/ exists ms, latency options = Some (Fixed ms) /\ truthy_number ms = false) ->
  unit_interval (rng pos) = true ->
  let t := calls (chaosMiddleware options NODE_ENV req) rng pos in
  next_calls t = 1%nat /\ delays t = [] /\ response_calls t = [].
Proof.
  intros Hrate Hlat Hu. cbv zeta.
  destruct (chaos_applies options NODE_ENV req) eqn:H.
  - pose proof (applied_observations options NODE_ENV req rng pos H) as E.
    cbv zeta in E. apply unit_interval_bounds in Hu as [Hu _].
    assert (Hr : lt (rng pos) (default zero (errorRate options)) = false).
    { destruct Hrate as [->|[s ->]]; cbn [default from_option id].
      - apply (below_zero_impossible _ false Hu).
      - apply (below_zero_impossible _ s Hu). }
    rewrite Hr in E. destruct E as (E1 & E2 & E3).
    split; [exact E3|]. split.
    + rewrite E2. destruct Hlat as [->|(ms & -> & Hms)]; [reflexivity|].
      cbn. now rewrite Hms.
    + unfold injects_error in E1.
      destruct (response_calls _); [reflexivity|]. exfalso. now apply E1.
  - destruct (gated_untouched options NODE_ENV req rng pos H) as (A & B & C & _).
    now repeat split.
Qed.


(** X17. A request that a gate stops leaves the stream of random samples
    where it was: the requests served after it meet the same samples as if
    it had never arrived. *)
Theorem gated_request_keeps_stream (options : ChaosOptions)
    (NODE_ENV : option string) (req : GenericRequest)
    (rest : list (option string * GenericRequest))
    (rng : nat -> number) (pos : nat) :
  chaos_applies options NODE_ENV req = false ->
  serve (chaosMiddleware options) rng pos ((NODE_ENV, req) :: rest)
  = serve (chaosMiddleware options) rng pos rest.
Proof.
  intros H. cbn [serve]. f_equal.
  unfold position_after. rewrite chaosMiddleware_branches.
  unfold chaos_applies in H.
  destruct (is_production NODE_ENV); [reflexivity|].
  destruct (activation_gate_passes options req); [|reflexivity].
  destruct (method_gate_passes options req); [discriminate H|reflexivity].
Qed.

End Properties.

(** ** The theorems at concrete inputs

    The inputs below are ASCII, where [ascii_toUpperCase] is the engine's
    [toUpperCase]. *)

#[global] Existing Instance ascii_string_prototype.

(** C3, as the claim states it, does not hold: no options, request and
    samples make one invocation both await a delay and inject an error, even
    with a positive [errorRate] and [latency] set, whatever the engine's
    [toUpperCase]. *)
Lemma no_delay_with_error :
  ~ exists (SP : StringPrototype) (options : ChaosOptions)
      (NODE_ENV : option string) (req : GenericRequest)
      (rng : nat -> number) (pos : nat) (rate : number),
      chaos_applies options NODE_ENV req = true
      /\ errorRate options = Some rate /\ lt zero rate = true
      /\ is_Some (latency options)
      /\ delays (calls (chaosMiddleware options NODE_ENV req) rng pos) <> []
      /\ injects_error (calls (chaosMiddleware options NODE_ENV req) rng pos).
Proof.
  intros (SP & options & env & req & rng & pos & rate & H & _ & _ & _ & Hd & He).
  pose proof (applied_observations options env req rng pos H) as E. cbv zeta in E.
  destruct (lt (rng pos) _).
  - destruct E as (_ & E & _). now apply Hd.
  - destruct E as (E & _). now apply E.
Qed.

(** C5 fails on the arithmetic of the code. With [latency: [800, 1500]] and
    [0.9999999999999998] as the sample of the latency branch, a binary64
    value of [0, 1), the product [r * 701] rounds to [701 - 2^-43] and its
    sum with [800], the tie [1501 - 2^-43], rounds to [1501]: the middleware
    awaits 1501 ms, above [max].  So it does with [0.9999999999999999], and
    with [latency: [1, 1]] that sample gives 2 ms.  [src/index.ts] has the
    same expression and does the same. *)
Theorem range_latency_exceeds_max :
  valid_binary prec emax below_one = true
  /\ unit_interval below_one = true
  /\ chaos_applies range_options None get_request = true
  /\ calls (chaosMiddleware range_options None get_request)
       (constant_samples below_one) 0
     = [ConsoleLog (LogDelaying (num_of_Z 1501)); Delay (num_of_Z 1501); Next]
  /\ calls (IndexTs.chaosMiddleware (to_index_options range_options) None
              (to_index_request get_request)) (constant_samples below_one) 0
     = [ConsoleLog (LogDelaying (num_of_Z 1501)); Delay (num_of_Z 1501); Next]
  /\ lt (num_of_Z 1500) (num_of_Z 1501) = true
  /\ valid_binary prec emax almost_one = true
  /\ unit_interval almost_one = true
  /\ delays (calls (chaosMiddleware range_options None get_request)
               (constant_samples almost_one) 0)
     = [num_of_Z 1501]
  /\ delays (calls (chaosMiddleware one_one_options None get_request)
               (constant_samples almost_one) 0)
     = [num_of_Z 2].
Proof. vm_compute. repeat split. Qed.

Lemma production_disables_chaos_witness :
  untouched (chaosMiddleware readme_options (Some "production"%string) get_request)
    (constant_samples zero) 0
  /\ untouched
       (IndexTs.chaosMiddleware (to_index_options readme_options)
          (Some "production"%string) (to_index_request get_request))
       (constant_samples zero) 0.
Proof. apply production_disables_chaos. reflexivity. Defined.

Lemma activation_keyword_gate_witness :
  untouched (chaosMiddleware keyword_options None chaos_false_request)
    (constant_samples half) 0.
Proof.
  apply (activation_keyword_gate keyword_options None chaos_false_request
           (constant_samples half) 0%nat "chaos"%string).
  - reflexivity.
  - discriminate.
  - right. exists {[ "chaos"%string := VStr "false" ]}.
    split; [reflexivity|]. vm_compute. discriminate.
Defined.

Lemma method_gate_witness :
  untouched (chaosMiddleware methods_options None lowercase_get_request)
    (constant_samples half) 0
  /\ chaosMiddleware (with_methods no_options (Some ["post"; "Delete"]%string)) None
       {| method := Some "DELETE"%string; query := None |} (constant_samples half) 0%nat
     = chaosMiddleware (with_methods no_options (Some ["POST"; "DELETE"]%string)) None
         {| method := Some "delete"%string; query := None |} (constant_samples half) 0%nat.
Proof.
  split.
  - apply (proj1 (method_gate methods_options None (constant_samples half) 0%nat)
             lowercase_get_request ["POST"; "DELETE"]%string).
    + reflexivity.
    + discriminate.
    + right. exists "get"%string. split; [reflexivity|].
      intros H. apply (bool_decide_eq_true_2 _) in H. vm_compute in H. discriminate H.
  - apply (proj2 (method_gate no_options None (constant_samples half) 0%nat));
      reflexivity.
Defined.

Lemma error_or_latency_witness :
  (let t := calls (chaosMiddleware readme_options None get_request)
              (constant_samples quarter) 0 in
   sends_error_response readme_options t /\ delays t = [])
  /\ (let t := calls (chaosMiddleware readme_options None get_request)
                 (constant_samples almost_one) 0 in
      passes_through t
      /\ delays t = expected_delays (latency readme_options) almost_one).
Proof.
  split.
  - apply (error_or_latency readme_options None get_request
             (constant_samples quarter) 0%nat).
    reflexivity.
  - apply (error_or_latency readme_options None get_request
             (constant_samples almost_one) 0%nat).
    reflexivity.
Defined.

Lemma error_rate_threshold_witness :
  error_decision (calls (chaosMiddleware readme_options None get_request)
                    (constant_samples almost_one) 0)
    (draws (chaosMiddleware readme_options None get_request)
       (constant_samples almost_one) 0)
    (Some half) almost_one
  /\ error_decision
       (calls (IndexTs.chaosMiddleware (to_index_options readme_options) None
                 (to_index_request get_request)) (constant_samples almost_one) 0)
       (draws (IndexTs.chaosMiddleware (to_index_options readme_options) None
                 (to_index_request get_request)) (constant_samples almost_one) 0)
       (Some half) almost_one.
Proof.
  split.
  - apply (proj1 (error_rate_threshold readme_options
                    (to_index_options readme_options) None get_request
                    (to_index_request get_request)
                    (constant_samples almost_one) 0%nat)).
    reflexivity.
  - apply (proj2 (error_rate_threshold readme_options
                    (to_index_options readme_options) None get_request
                    (to_index_request get_request)
                    (constant_samples almost_one) 0%nat)).
    reflexivity.
Defined.

Lemma closure_keeps_no_state_witness :
  let after1 := Closure.serve [] fresh_world in
  let after2 := Closure.serve [lowercase_get_request; get_request] used_world in
  (process_env after1 = process_env fresh_world
   /\ captured_options after1 = captured_options fresh_world)
  /\ (process_env after2 = process_env used_world
      /\ captured_options after2 = captured_options used_world)
  /\ Closure.calls (Closure.chaosMiddleware get_request) after1
     = Closure.calls (Closure.chaosMiddleware get_request) after2
  /\ Closure.draws (Closure.chaosMiddleware get_request) after1
     = Closure.draws (Closure.chaosMiddleware get_request) after2.
Proof.
  apply (closure_keeps_no_state [] [lowercase_get_request; get_request]
           get_request fresh_world used_world).
  - reflexivity.
  - reflexivity.
  - intros k Hk. change (k < 2)%nat in Hk.
    destruct k as [|[|k]]; [vm_compute; reflexivity|vm_compute; reflexivity|lia].
Defined.

Lemma index_ts_equivalent_witness :
  let full := chaosMiddleware readme_options None get_request in
  let index :=
    IndexTs.chaosMiddleware (to_index_options readme_options) None
      (to_index_request get_request) in
  observe (calls full (constant_samples zero) 0)
  = observe (calls index (constant_samples zero) 0)
  /\ draws full (constant_samples zero) 0 = draws index (constant_samples zero) 0
  /\ calls full (constant_samples zero) 0
     = on_response <$> calls index (constant_samples zero) 0.
Proof.
  apply (index_ts_equivalent readme_options None get_request
           (constant_samples zero) 0%nat); reflexivity.
Defined.

Lemma only_production_disables_witness :
  chaosMiddleware readme_options (Some "Production"%string) get_request
    (constant_samples quarter) 0%nat
  = chaosMiddleware readme_options None get_request (constant_samples quarter) 0%nat.
Proof.
  apply (only_production_disables readme_options (Some "Production"%string)
           get_request (constant_samples quarter) 0%nat).
  discriminate.
Defined.

Lemma activated_is_log_then_ungated_witness :
  calls (chaosMiddleware keyword_options None chaos_true_request)
    (constant_samples quarter) 0
  = ConsoleLog (LogActivated "chaos")
      :: calls (chaosMiddleware (with_activationKeyword keyword_options None) None
                  chaos_true_request) (constant_samples quarter) 0
  /\ position_after (chaosMiddleware keyword_options None chaos_true_request)
       (constant_samples quarter) 0
     = position_after
         (chaosMiddleware (with_activationKeyword keyword_options None) None
            chaos_true_request) (constant_samples quarter) 0.
Proof.
  apply (activated_is_log_then_ungated keyword_options None chaos_true_request
           (constant_samples quarter) 0%nat "chaos"%string
           {[ "chaos"%string := VStr "true" ]}).
  - discriminate.
  - reflexivity.
  - discriminate.
  - reflexivity.
  - vm_compute. reflexivity.
Defined.

Lemma activation_logged_before_method_gate_witness :
  calls (chaosMiddleware keyword_post_options None chaos_true_request)
    (constant_samples quarter) 0
  = [ConsoleLog (LogActivated "chaos"); Next]
  /\ draws (chaosMiddleware keyword_post_options None chaos_true_request)
       (constant_samples quarter) 0 = 0%nat.
Proof.
  apply (activation_logged_before_method_gate keyword_post_options None
           chaos_true_request (constant_samples quarter) 0%nat "chaos"%string
           {[ "chaos"%string := VStr "true" ]}).
  - discriminate.
  - reflexivity.
  - discriminate.
  - reflexivity.
  - vm_compute. reflexivity.
  - vm_compute. reflexivity.
Defined.

Lemma empty_method_never_allowed_witness :
  untouched (chaosMiddleware empty_method_options None empty_method_request)
    (constant_samples quarter) 0.
Proof.
  apply (empty_method_never_allowed empty_method_options None
           empty_method_request (constant_samples quarter) 0%nat [""%string]).
  - reflexivity.
  - discriminate.
  - reflexivity.
Defined.

Lemma listed_method_is_unfiltered_witness :
  chaosMiddleware methods_options None
    {| method := Some "delete"%string; query := None |} (constant_samples quarter) 0%nat
  = chaosMiddleware (with_methods methods_options None) None
      {| method := Some "delete"%string; query := None |} (constant_samples quarter) 0%nat.
Proof.
  apply (listed_method_is_unfiltered methods_options None
           {| method := Some "delete"%string; query := None |}
           (constant_samples quarter) 0%nat ["POST"; "DELETE"]%string "delete"%string).
  - reflexivity.
  - reflexivity.
  - discriminate.
  - apply (bool_decide_eq_true_1 _). vm_compute. reflexivity.
Defined.

Lemma error_status_default_witness :
  let t := calls (chaosMiddleware zero_status_options None get_request)
             (constant_samples quarter) 0 in
  (error zero_status_options = None ->
   statuses t = [num_of_Z 500] /\ terminations t = [ByEnd])
  /\ (forall e, error zero_status_options = Some e ->
        truthy_number (status e) = false ->
        statuses t = [num_of_Z 500]
        /\ terminations t = [match body e with Some b => ByJson b | None => ByEnd end])
  /\ (forall e, error zero_status_options = Some e ->
        truthy_number (status e) = true ->
        statuses t = [status e]
        /\ terminations t = [match body e with Some b => ByJson b | None => ByEnd end]).
Proof.
  apply (error_status_default zero_status_options None get_request
           (constant_samples quarter) 0%nat); reflexivity.
Defined.

Lemma falsy_latency_is_no_latency_witness :
  chaosMiddleware (with_latency readme_options (Some (Fixed S754_nan))) None
    get_request (constant_samples almost_one) 0%nat
  = chaosMiddleware (with_latency readme_options None) None
      get_request (constant_samples almost_one) 0%nat.
Proof.
  apply (falsy_latency_is_no_latency readme_options None get_request
           (constant_samples almost_one) 0%nat S754_nan).
  reflexivity.
Defined.

Lemma range_latency_always_delays_witness :
  delays (calls (chaosMiddleware (with_latency no_options (Some (Range zero zero)))
                   None get_request) (constant_samples quarter) 0)
  = [Math_floor (add (mul quarter (add (sub zero zero) (num_of_Z 1))) zero)]
  /\ draws (chaosMiddleware (with_latency no_options (Some (Range zero zero)))
              None get_request) (constant_samples quarter) 0 = 2%nat.
Proof.
  apply (range_latency_always_delays
           (with_latency no_options (Some (Range zero zero))) None get_request
           (constant_samples quarter) 0%nat zero zero); reflexivity.
Defined.

Lemma error_rate_outside_range_witness :
  let t := calls (chaosMiddleware (with_errorRate no_options (Some two)) None
                    get_request) (constant_samples almost_one) 0 in
  (two = S754_nan \/ two = S754_infinity true -> ~ injects_error t)
  /\ (is_double two = true -> is_finite two = true -> exact two <= 0 ->
      ~ injects_error t)
  /\ (is_double two = true -> is_finite two = true -> 2 ^ 1074 <= exact two ->
      injects_error t)
  /\ (two = S754_infinity false -> injects_error t).
Proof.
  apply (error_rate_outside_range (with_errorRate no_options (Some two)) None
           get_request (constant_samples almost_one) 0%nat two); reflexivity.
Defined.

Lemma error_rate_monotone_witness :
  injects_error
    (calls (chaosMiddleware (with_errorRate no_options (Some one)) None get_request)
       (constant_samples quarter) 0).
Proof.
  apply (error_rate_monotone no_options None get_request
           (constant_samples quarter) 0%nat half one);
    try reflexivity.
  - vm_compute. discriminate.
  - vm_compute. discriminate.
Defined.

Lemma zero_sample_delays_floor_min_witness :
  exists d,
    delays (calls (chaosMiddleware range_options None get_request)
              (constant_samples zero) 0) = [d]
    /\ (forall sm mm em, num_of_Z 800 = S754_finite sm mm em ->
        d = Math_floor (num_of_Z 800))
    /\ (forall sm, num_of_Z 800 = S754_zero sm -> exists sd, d = S754_zero sd).
Proof.
  apply (zero_sample_delays_floor_min range_options None get_request
           (constant_samples zero) 0%nat (num_of_Z 800) (num_of_Z 1500) false);
    reflexivity.
Defined.

Lemma inert_options_pass_through_witness :
  let t := calls (chaosMiddleware no_options None get_request)
             (constant_samples almost_one) 0 in
  next_calls t = 1%nat /\ delays t = [] /\ response_calls t = [].
Proof.
  apply (inert_options_pass_through no_options None get_request
           (constant_samples almost_one) 0%nat).
  - left. reflexivity.
  - left. reflexivity.
  - reflexivity.
Defined.

Lemma gated_request_keeps_stream_witness :
  serve (chaosMiddleware readme_options) two_samples 0
    [(Some "production"%string, get_request); (None, get_request)]
  = serve (chaosMiddleware readme_options) two_samples 0 [(None, get_request)].
Proof.
  apply (gated_request_keeps_stream readme_options (Some "production"%string)
           get_request [(None, get_request)] two_samples 0%nat).
  reflexivity.
Defined.
